(** * ScienceQA: the semantic knowledge-retrieval engine

    A shallow embedding of the Python sources

      - [scripts/1_clean_data.py]  (the cleaning step, [clean_data])
      - [scripts/2_build_db.py]    (the ingestion pipeline, [build_knowledge_base])
      - [app/rag_engine.py]        (the query pipeline, [search_knowledge])
      - [app/main.py]              (the request handlers)
      - [app/quiz_engine.py]       (quiz sampling, [generate_quiz])

    Python values are modelled by the inductive [JVal], dictionaries by
    stdpp's [gmap], exceptions by an error sum threaded through a small
    state-and-error monad over the process' world (files, the persistent
    vector store, the console).  The vector store itself (chromadb) is an
    external library: the code is embedded over an interface
    [VectorIndex], and an in-memory reference implementation [MemIndex]
    is given for concrete runs. *)

From stdpp Require Import gmap strings list fin_maps pretty.
From Stdlib Require Import ZArith Lia Ascii.

#[local] Set Warnings "-register-all".

Open Scope string_scope.
Open Scope list_scope.

(** ** Python values and their conversions *)

Module Py.

(** The JSON values that occur in the corpus files: [null], booleans,
    integers, strings and (for the [choices] column) objects.  A missing
    cell of a data frame (NaN) is [JNull], which is also what [to_json]
    writes for it.  Floating-point numbers and arrays do not occur in the
    columns the pipelines read and are not represented. *)
Inductive JVal : Type :=
  | JNull
  | JBool (b : bool)
  | JInt (z : Z)
  | JStr (s : string)
  | JDict (fields : list (string * JVal)).

(** Python truthiness ([bool(v)]), as used by [x or default] and [if x:]. *)
Definition truthy (v : JVal) : bool :=
  match v with
  | JNull => false
  | JBool b => b
  | JInt z => negb (z =? 0)%Z
  | JStr s => negb (String.eqb s "")
  | JDict fs => match fs with [] => false | _ => true end
  end.

(** [a or b] on optional results of [dict.get]: [None] is falsy. *)
Definition py_or (a : option JVal) (b : JVal) : JVal :=
  match a with
  | Some v => if truthy v then v else b
  | None => b
  end.

Definition hex_digit (n : nat) : string :=
  String.substring n 1 "0123456789abcdef".

Definition string_contains_char (c : ascii) (s : string) : bool :=
  existsb (fun d => Ascii.eqb c d) (String.list_ascii_of_string s).

(** [repr] of a [str]: single quotes unless the text has a single quote
    and no double quote; backslash, the quote and control characters are
    escaped.  Bytes above 127 (UTF-8 text) are kept as they are. *)
Definition double_quote : ascii := ascii_of_nat 34.

Definition repr_quote (s : string) : ascii :=
  if string_contains_char "'"%char s && negb (string_contains_char double_quote s)
  then double_quote else "'"%char.

Definition repr_char (q c : ascii) : string :=
  let n := nat_of_ascii c in
  if Ascii.eqb c q || Ascii.eqb c "\"%char then String "\"%char (String c "")
  else if (n =? 9)%nat then "\t"
  else if (n =? 10)%nat then "\n"
  else if (n =? 13)%nat then "\r"
  else if (n <? 32)%nat || (n =? 127)%nat then "\x" +:+ hex_digit (n / 16) +:+ hex_digit (n mod 16)
  else String c "".

Definition repr_str (s : string) : string :=
  let q := repr_quote s in
  String q (String.concat "" (map (repr_char q) (String.list_ascii_of_string s)))
    +:+ String q "".

(** [repr(v)]. *)
Fixpoint py_repr (v : JVal) : string :=
  match v with
  | JNull => "None"
  | JBool true => "True"
  | JBool false => "False"
  | JInt z => pretty z
  | JStr s => repr_str s
  | JDict fs =>
      "{" +:+ String.concat ", "
               (map (fun kv => repr_str (fst kv) +:+ ": " +:+ py_repr (snd kv)) fs)
          +:+ "}"
  end.

(** [str(v)], which is also what an f-string field [{v}] formats to. *)
Definition py_str (v : JVal) : string :=
  match v with
  | JStr s => s
  | _ => py_repr v
  end.

(** A JSON object read by [json.load], a [dict]. *)
Abbreviation Item := (gmap string JVal).

(** [d.get(k, default)]. *)
Definition dict_get (d : Item) (k : string) (default : JVal) : JVal :=
  match d !! k with
  | Some v => v
  | None => default
  end.

(** The exceptions that the modelled code can raise or receive. *)
Inductive Exception : Type :=
  | KeyError (key : string)
  | IndexError (msg : string)
  | ValueError (msg : string)
  | DuplicateIDError (dups : list string)
  | ReError (pattern : string)
  | StoreError (msg : string)
  | AttributeError (msg : string).

(** [str(e)]. *)
Definition str_exc (e : Exception) : string :=
  match e with
  | KeyError k => repr_str k
  | IndexError m => m
  | ValueError m => m
  | DuplicateIDError ds =>
      "Expected IDs to be unique, found duplicates of: " +:+ String.concat ", " ds
  | ReError p => "invalid pattern: " +:+ p
  | StoreError m => m
  | AttributeError m => m
  end.

(** [range(0, stop, step)] for a positive step. *)
Definition py_range (stop step : nat) : list nat :=
  map (fun k => k * step) (seq 0 ((stop + step - 1) / step)).

(** The slice [l[i:j]] for [0 <= i <= j]. *)
Definition slice {A : Type} (l : list A) (i j : nat) : list A :=
  take (j - i) (drop i l).

(** [sep.join(parts)]. *)
Definition join (sep : string) (parts : list string) : string :=
  String.concat sep parts.

End Py.

Import Py.

(** ** The vector store (chromadb), an external collaborator *)

Module Store.

(** The metadata of an indexed document: a flat [dict] of strings. *)
Abbreviation Metadata := (gmap string string).

(** One stored document. *)
Record Entry : Type := mkEntry {
  e_id : string;
  e_doc : string;
  e_meta : Metadata
}.

(** What [collection.query] returns: one list of documents and one list
    of metadata per query text, nearest first.  The metadata of a
    document is a dict, or [None] for a document that was stored
    without any. *)
Record QueryResult : Type := mkQueryResult {
  documents : list (list string);
  metadatas : list (list (option Metadata))
}.

(** The operations of a chromadb collection that the code calls.  The
    state of a collection has type [C].
    - [vi_create] is the fresh collection made by [create_collection];
    - [vi_add c ids docs metas] is [collection.add]: the new state, and
      the exception it raised if any (a failed call may have been applied
      in part);
    - [vi_query c texts n] is [collection.query(query_texts, n_results)],
      a read-only operation that may raise;
    - [vi_get c] lists the stored documents ([collection.get()]). *)
Class VectorIndex (C : Type) : Type := {
  vi_create : C;
  vi_add : C -> list string -> list string -> list Metadata -> C * option Exception;
  vi_query : C -> list string -> nat -> Exception + QueryResult;
  vi_get : C -> list Entry
}.

(** *** An in-memory collection

    The reference implementation used for concrete runs.  Documents are
    kept in insertion order.  [add] follows chromadb: the ids of a call
    must be a non-empty list without duplicates ([DuplicateIDError]
    otherwise, and nothing is stored), the three lists must have the same
    length, and a document whose id is already stored is ignored.
    Embedding and metric are one black box [dist query document]; a query
    returns the [n] stored documents of least distance, nearest first
    (ties in insertion order). *)

(** The ids that occur again after having been seen. *)
Fixpoint dup_ids (seen ids : list string) : list string :=
  match ids with
  | [] => []
  | x :: rest =>
      if bool_decide (x ∈ seen) then x :: dup_ids seen rest
      else dup_ids (x :: seen) rest
  end.

Fixpoint zip_entries (ids docs : list string) (metas : list Metadata) : list Entry :=
  match ids, docs, metas with
  | i :: ids', d :: docs', m :: metas' => mkEntry i d m :: zip_entries ids' docs' metas'
  | _, _, _ => []
  end.

Definition stored_ids (c : list Entry) : list string := map e_id c.

Definition mem_add (c : list Entry) (ids docs : list string) (metas : list Metadata)
  : list Entry * option Exception :=
  match ids with
  | [] => (c, Some (ValueError "Expected IDs to be a non-empty list, got 0 IDs"))
  | _ =>
      if negb (bool_decide (length docs = length ids))
         || negb (bool_decide (length metas = length ids))
      then (c, Some (ValueError "Unequal lengths for fields"))
      else match remove_dups (dup_ids [] ids) with
           | [] =>
               (c ++ filter (fun e => e_id e ∉ stored_ids c) (zip_entries ids docs metas),
                None)
           | ds => (c, Some (DuplicateIDError ds))
           end
  end.

(** The metadata that a query returns for a stored document: [None]
    when the document has none (kept here as the empty dict). *)
Definition returned_metadata (e : Entry) : option Metadata :=
  if decide (e_meta e = ∅) then None else Some (e_meta e).

Section Ranking.
Variable dist : string -> string -> nat.

(** Insertion of an entry into a list sorted by distance to [q],
    after the entries that are at most as far. *)
Fixpoint insert_by (q : string) (e : Entry) (l : list Entry) : list Entry :=
  match l with
  | [] => [e]
  | x :: rest =>
      if (dist q (e_doc e) <? dist q (e_doc x))%nat then e :: l
      else x :: insert_by q e rest
  end.

Definition rank (q : string) (c : list Entry) : list Entry :=
  fold_left (fun acc e => insert_by q e acc) c [].

Definition mem_query (c : list Entry) (texts : list string) (n : nat)
  : Exception + QueryResult :=
  let tops := map (fun q => take n (rank q c)) texts in
  inr {| documents := map (map e_doc) tops;
         metadatas := map (map returned_metadata) tops |}.

#[local] Instance MemIndex : VectorIndex (list Entry) := {
  vi_create := [];
  vi_add := mem_add;
  vi_query := mem_query;
  vi_get := fun c => c
}.
End Ranking.

(** A distance for the examples: the difference of the lengths. *)
Definition len_dist (q d : string) : nat :=
  (String.length q - String.length d) + (String.length d - String.length q).

End Store.

Import Store.

(** ** The world of the scripts and a state-and-error monad over it *)

(** A pandas data frame: its column labels and its rows, each row a map
    from column label to cell.  A missing cell (NaN) is [JNull]. *)
Record DataFrame : Type := mkDataFrame {
  columns : list string;
  rows : list Item
}.

(** What the scripts read and write: the raw CSV as [pd.read_csv] parses
    it, the cleaned JSON file, the collection [exam_knowledge] of the
    persistent store (if it exists), and the console. *)
Record World (C : Type) : Type := mkWorld {
  csv_file : option DataFrame;
  json_file : option (list Item);
  store : option C;
  stdout : list string
}.
Arguments mkWorld {C}.
Arguments csv_file {C}.
Arguments json_file {C}.
Arguments store {C}.
Arguments stdout {C}.

Module Run.
Section Monad.
Context {C : Type}.

(** A computation either returns a value or raises, and changes the world. *)
Definition M (A : Type) : Type := World C -> (Exception + A) * World C.

Definition ret {A} (a : A) : M A := fun w => (inr a, w).

Definition bind {A B} (m : M A) (k : A -> M B) : M B :=
  fun w =>
    match m w with
    | (inr a, w') => k a w'
    | (inl e, w') => (inl e, w')
    end.

Definition raise {A} (e : Exception) : M A := fun w => (inl e, w).

(** [try: body / except: handler] with a bare [except]. *)
Definition try_except {A} (body : M A) (handler : Exception -> M A) : M A :=
  fun w =>
    match body w with
    | (inr a, w') => (inr a, w')
    | (inl e, w') => handler e w'
    end.

Definition get_world : M (World C) := fun w => (inr w, w).

Definition print (line : string) : M unit :=
  fun w => (inr tt, mkWorld (csv_file w) (json_file w) (store w) (stdout w ++ [line])).

Definition set_store (s : option C) : M unit :=
  fun w => (inr tt, mkWorld (csv_file w) (json_file w) s (stdout w)).

Definition write_json (records : list Item) : M unit :=
  fun w => (inr tt, mkWorld (csv_file w) (Some records) (store w) (stdout w)).

(** A pure computation that may raise. *)
Definition lift {A} (r : Exception + A) : M A :=
  match r with
  | inl e => raise e
  | inr a => ret a
  end.

(** [for x in l: body x]. *)
Fixpoint for_each {A} (l : list A) (body : A -> M unit) : M unit :=
  match l with
  | [] => ret tt
  | x :: rest => bind (body x) (fun _ => for_each rest body)
  end.
End Monad.
End Run.

Import Run.

Declare Scope run_scope.
Delimit Scope run_scope with run.
Notation "x <- c1 ;; c2" := (bind c1 (fun x => c2))
  (at level 100, c1 at next level, right associativity) : run_scope.
Notation "c1 ;; c2" := (bind c1 (fun _ => c2))
  (at level 100, right associativity) : run_scope.

(** ** [scripts/1_clean_data.py] *)

Module CleanData.

Definition INPUT_FILE : string := "data/ScienceQA_with_context2.csv".
Definition OUTPUT_FILE : string := "data/cleaned_exam.json".

(** The cell [row[c]]. *)
Definition cell (row : Item) (c : string) : JVal := dict_get row c JNull.

(** [pd.notna]. *)
Definition notna (v : JVal) : bool :=
  match v with
  | JNull => false
  | _ => true
  end.

(** The inner function [format_choices]; [opt in row] asks whether [opt]
    is a column label. *)
Definition format_choices (cols : list string) (row : Item) : JVal :=
  JDict (fold_left
           (fun choices opt =>
              if bool_decide (opt ∈ cols) && notna (cell row opt)
              then choices ++ [(opt, cell row opt)]
              else choices)
           ["A"; "B"; "C"; "D"; "E"] []).

(** [df['choices'] = df.apply(format_choices, axis=1)]. *)
Definition assign_choices (df : DataFrame) : DataFrame :=
  {| columns := if bool_decide ("choices" ∈ columns df) then columns df
                else columns df ++ ["choices"];
     rows := map (fun row => <["choices" := format_choices (columns df) row]> row)
                 (rows df) |}.

Definition wanted_cols : list string :=
  ["id"; "prompt"; "lecture"; "solution"; "subject"; "topic"; "choices"; "answer"; "image"].

(** [df[cols]]: the frame restricted to the given columns. *)
Definition select (df : DataFrame) (cols : list string) : DataFrame :=
  {| columns := cols;
     rows := map (fun row => list_to_map (map (fun c => (c, cell row c)) cols) : Item)
                 (rows df) |}.

(** [df.dropna(subset=labels)]: a label that is not a column is a
    [KeyError]; otherwise the rows with a missing cell under one of the
    labels are dropped. *)
Definition dropna (subset : list string) (df : DataFrame) : Exception + DataFrame :=
  match filter (fun c => c ∉ columns df) subset with
  | missing :: _ => inl (KeyError missing)
  | [] =>
      inr {| columns := columns df;
             rows := filter (fun row => forallb (fun c => notna (cell row c)) subset = true)
                            (rows df) |}
  end.

Section Script.
Context {C : Type}.
Local Open Scope run_scope.

Definition clean_data : M (C:=C) unit :=
  print "Starting data cleaning..." ;;
  w <- get_world ;;
  match csv_file w with
  | None => print ("Error: File " +:+ INPUT_FILE +:+ " not found!")
  | Some df =>
      let df := assign_choices df in
      let existing_cols := filter (fun c => c ∈ columns df) wanted_cols in
      let df_clean := select df existing_cols in
      df_clean <- lift (dropna ["prompt"; "lecture"] df_clean) ;;
      write_json (rows df_clean) ;;
      print ("Success! Saved " +:+ pretty (length (rows df_clean))
             +:+ " questions to " +:+ OUTPUT_FILE)
  end.
End Script.

End CleanData.

(** ** [scripts/2_build_db.py] *)

Module BuildDb.

Definition DATA_FILE : string := "data/cleaned_exam.json".
Definition DB_PATH : string := "vector_store".
Definition batch_size : nat := 500.

(** The f-string [f"Question: {item.get('prompt', '')} Context: {item.get('lecture', '')}"]. *)
Definition combined_text (item : Item) : string :=
  "Question: " +:+ py_str (dict_get item "prompt" (JStr ""))
  +:+ " Context: " +:+ py_str (dict_get item "lecture" (JStr "")).

(** The metadata dict of a record. *)
Definition metadata_of (item : Item) : Metadata :=
  {[ "subject" := py_str (py_or (item !! "subject") (JStr "General"));
     "topic" := py_str (py_or (item !! "topic") (JStr "General"));
     "solution" := py_str (py_or (item !! "solution") (JStr "")) ]}.

(** The three parallel lists that the first loop fills. *)
Definition Columns : Type := list string * list string * list Metadata.

(** [for item in data: ...], started from the lists built so far.
    [item['id']] raises [KeyError] when the record has no id. *)
Fixpoint collect (data : list Item) (acc : Columns) : Exception + Columns :=
  match data with
  | [] => inr acc
  | item :: rest =>
      let '(ids, documents, metadatas) := acc in
      let text := combined_text item in
      match item !! "id" with
      | None => inl (KeyError "id")
      | Some v =>
          collect rest (ids ++ [py_str v], documents ++ [text],
                        metadatas ++ [metadata_of item])
      end
  end.

Section Script.
Context {C : Type} `{!VectorIndex C}.
Local Open Scope run_scope.

(** [client.delete_collection(name="exam_knowledge")]. *)
Definition delete_collection : M (C:=C) unit :=
  w <- get_world ;;
  match store w with
  | Some _ => set_store None
  | None => raise (ValueError "Collection exam_knowledge does not exist.")
  end.

(** [client.create_collection(name="exam_knowledge", ...)]. *)
Definition create_collection : M (C:=C) unit :=
  w <- get_world ;;
  match store w with
  | Some _ => raise (StoreError "Collection exam_knowledge already exists")
  | None => set_store (Some vi_create)
  end.

(** [collection.add(ids=..., documents=..., metadatas=...)]. *)
Definition collection_add (ids docs : list string) (metas : list Metadata)
  : M (C:=C) unit :=
  w <- get_world ;;
  match store w with
  | None => raise (StoreError "Collection exam_knowledge does not exist.")
  | Some c =>
      let '(c', err) := vi_add c ids docs metas in
      set_store (Some c') ;;
      match err with
      | Some e => raise e
      | None => ret tt
      end
  end.

(** The body of the second loop, for the offset [i]. *)
Definition add_batch (cols : Columns) (total_batches i : nat) : M (C:=C) unit :=
  let '(ids, documents, metadatas) := cols in
  let batch_ids := slice ids i (i + batch_size) in
  let batch_docs := slice documents i (i + batch_size) in
  let batch_meta := slice metadatas i (i + batch_size) in
  match batch_ids with
  | [] => ret tt
  | _ =>
      collection_add batch_ids batch_docs batch_meta ;;
      print ("   Added batch " +:+ pretty (i / batch_size + 1) +:+ "/"
             +:+ pretty total_batches +:+ "...")
  end.

Definition build_knowledge_base : M (C:=C) unit :=
  print "Building Vector Database..." ;;
  w <- get_world ;;
  match json_file w with
  | None => print ("Error: " +:+ DATA_FILE +:+ " not found. Did you run script 1?")
  | Some data =>
      try_except delete_collection (fun _ => ret tt) ;;
      create_collection ;;
      print ("Processing " +:+ pretty (length data) +:+ " items...") ;;
      cols <- lift (collect data ([], [], [])) ;;
      let ids := cols.1.1 in
      let total_batches := length ids / batch_size + 1 in
      for_each (py_range (length ids) batch_size) (add_batch cols total_batches) ;;
      print "Database built successfully in /vector_store!"
  end.
End Script.

End BuildDb.

(** ** [app/rag_engine.py] *)

Module RagEngine.

(** What [search_knowledge] hands back: it has two [return] statements,
    one of a bare [str] and one of a pair. *)
Inductive SearchReturn : Type :=
  | RetStr (s : string)
  | RetPair (best_context topic : string).

Section Engine.
Context {C : Type} `{!VectorIndex C}.

(** [search_knowledge(query, n_results)] against the module-level
    [collection]. *)
Definition search_knowledge (collection : C) (query : string) (n_results : nat)
  : Exception + SearchReturn :=
  match vi_query collection [query] n_results with
  | inl e => inl e
  | inr results =>
      match documents results !! 0%nat with
      | None => inl (IndexError "list index out of range")
      | Some [] => inr (RetStr "No relevant textbook info found.")
      | Some docs =>
          let best_context := join " " docs in
          match metadatas results !! 0%nat with
          | None => inl (IndexError "list index out of range")
          | Some metas =>
              match metas !! 0%nat with
              | None => inl (IndexError "list index out of range")
              | Some None =>
                  inl (AttributeError "'NoneType' object has no attribute 'get'")
              | Some (Some meta) =>
                  let topic := default "General" (meta !! "topic") in
                  inr (RetPair best_context topic)
              end
          end
      end
  end.
End Engine.

End RagEngine.

(** ** [app/models.py] and [app/main.py] *)

Module Main.
Import RagEngine.

Record QueryRequest : Type := mkQueryRequest {
  question_text : string;
  subject : option string
}.

(** The float [confidence_score] is kept as the decimal it is written as:
    [mantissa * 10 ^ exponent]. *)
Record Decimal : Type := mkDecimal {
  mantissa : Z;
  exponent : Z
}.

Record ContextResponse : Type := mkContextResponse {
  answer_context : string;
  source_topic : string;
  confidence_score : Decimal
}.

Record HTTPException : Type := mkHTTPException {
  status_code : nat;
  detail : string
}.

(** The state of the running application: the collection opened at
    import time and the console. *)
Record App (C : Type) : Type := mkApp {
  collection : C;
  console : list string
}.
Arguments mkApp {C}.
Arguments collection {C}.
Arguments console {C}.

(** The assignment [context, topic = value]: a pair unpacks to its two
    components; a [str] is iterated character by character and unpacks
    only if it has exactly two characters. *)
Definition unpack2 (value : SearchReturn) : Exception + (string * string) :=
  match value with
  | RetPair a b => inr (a, b)
  | RetStr s =>
      match String.list_ascii_of_string s with
      | [a; b] => inr (String a "", String b "")
      | [] => inl (ValueError "not enough values to unpack (expected 2, got 0)")
      | [_] => inl (ValueError "not enough values to unpack (expected 2, got 1)")
      | _ => inl (ValueError "too many values to unpack (expected 2)")
      end
  end.

Section Handlers.
Context {C : Type} `{!VectorIndex C}.

Definition log (app : App C) (line : string) : App C :=
  mkApp (collection app) (console app ++ [line]).

(** The handler of [POST /retrieve].  Every exception of the [try]
    block becomes an HTTP 500 whose detail is [str(e)]. *)
Definition retrieve_context (request : QueryRequest) (app : App C)
  : (HTTPException + ContextResponse) * App C :=
  let app := log app ("Received query: " +:+ question_text request) in
  let attempt :=
    match search_knowledge (collection app) (question_text request) 2 with
    | inl e => inl e
    | inr value =>
        match unpack2 value with
        | inl e => inl e
        | inr (context, topic) =>
            inr {| answer_context := context;
                   source_topic := topic;
                   confidence_score := mkDecimal 95 (-2) |}
        end
    end in
  match attempt with
  | inr response => (inr response, app)
  | inl e =>
      (inl {| status_code := 500; detail := str_exc e |},
       log app ("Error: " +:+ str_exc e))
  end.
End Handlers.

End Main.

(** ** [app/quiz_engine.py] *)

Module QuizEngine.

(** [df.empty]: no rows or no columns. *)
Definition df_empty (df : DataFrame) : bool :=
  match rows df, columns df with
  | [], _ | _, [] => true
  | _, _ => false
  end.

(** Sampling without replacement: [n] draws, the [k]-th of which takes
    the row at position [rng k] (modulo the number of rows left). *)
Fixpoint draw {A : Type} (rng : nat -> nat) (k n : nat) (pool : list A) : list A :=
  match n with
  | O => []
  | S n' =>
      let i := rng k mod length pool in
      match pool !! i with
      | None => []
      | Some x => x :: draw rng (S k) n' (delete i pool)
      end
  end.

(** [frame.sample(n=n)]: a negative [n], or one above the number of
    rows, is a [ValueError]. *)
Definition df_sample {A : Type} (rng : nat -> nat) (n : Z) (pool : list A)
  : Exception + list A :=
  if (n <? 0)%Z then
    inl (ValueError "A negative number of rows requested. Please provide `n` >= 0.")
  else if (Z.of_nat (length pool) <? n)%Z then
    inl (ValueError
           "Cannot take a larger sample than population when 'replace=False'")
  else inr (draw rng 0 (Z.to_nat n) pool).

Section Quiz.
(** [re_search pat] is the matcher of pandas' [str.contains(pat,
    case=False)], a case-insensitive regular-expression search, or
    [None] when [pat] is not a valid pattern. *)
Variable re_search : string -> option (string -> bool).
(** The random source behind [sample]. *)
Variable rng : nat -> nat.

(** Whether pandas offers the [.str] accessor on a column of the frame
    that [read_json] built: it does when a cell of the column is text or
    a nested object, and refuses a column in which every cell is
    missing, a boolean or an integer ([read_json] gives such a column a
    numeric or boolean dtype). *)
Definition str_accessor_ok (cells : list JVal) : bool :=
  existsb (fun v => match v with
                    | JStr _ | JDict _ => true
                    | _ => false
                    end) cells.

(** [df['topic'].str.contains(topic, case=False, na=False)]: the mask
    over the rows.  A frame without the column raises [KeyError]; a
    column that has no [.str] accessor raises [AttributeError]; then the
    pattern is compiled.  In a column that has the accessor, a cell that
    is not a string counts as no match. *)
Definition topic_mask (df : DataFrame) (topic : string) : Exception + list bool :=
  if bool_decide ("topic" ∈ columns df) then
    if str_accessor_ok (map (fun row => dict_get row "topic" JNull) (rows df)) then
      match re_search topic with
      | None => inl (ReError topic)
      | Some matches =>
          inr (map (fun row =>
                      match row !! "topic" with
                      | Some (JStr s) => matches s
                      | _ => false
                      end) (rows df))
      end
    else inl (AttributeError "Can only use .str accessor with string values!")
  else inl (KeyError "topic").

(** [df[mask]]. *)
Definition select_mask (rws : list Item) (mask : list bool) : list Item :=
  map fst (filter (fun rm => snd rm = true) (zip rws mask)).

(** [generate_quiz(topic, difficulty, num_questions)] over the
    module-level frame [df]; the result comes with the lines printed. *)
Definition generate_quiz (df : DataFrame) (topic difficulty : string)
    (num_questions : Z) : (Exception + list Item) * list string :=
  if df_empty df then (inr [], [])
  else
    match topic_mask df topic with
    | inl e => (inl e, [])
    | inr mask =>
        let topic_df := select_mask (rows df) mask in
        let '(topic_df, printed) :=
          match topic_df with
          | [] => (rows df,
                   ["⚠️ No questions found for '" +:+ topic
                    +:+ "'. Returning random mix."])
          | _ => (topic_df, [])
          end in
        let sample_size := Z.min num_questions (Z.of_nat (length topic_df)) in
        (df_sample rng sample_size topic_df, printed)
    end.

(** The handler of [POST /quiz/generate] calls it with the default
    [num_questions=5]. *)
Definition get_quiz (df : DataFrame) (topic difficulty : string)
  : (Exception + list Item) * list string :=
  generate_quiz df topic difficulty 5.
End Quiz.

(** A literal, case-insensitive substring test: what [re_search] is for a
    pattern without regular-expression metacharacters. *)
Definition lower_char (c : ascii) : ascii :=
  let n := nat_of_ascii c in
  if (65 <=? n)%nat && (n <=? 90)%nat then ascii_of_nat (n + 32) else c.

Fixpoint lower (s : string) : string :=
  match s with
  | EmptyString => EmptyString
  | String c rest => String (lower_char c) (lower rest)
  end.

Fixpoint is_prefix (p s : string) : bool :=
  match p, s with
  | EmptyString, _ => true
  | String a p', String b s' => Ascii.eqb a b && is_prefix p' s'
  | String _ _, EmptyString => false
  end.

Fixpoint is_substring (p s : string) : bool :=
  is_prefix p s ||
  match s with
  | EmptyString => false
  | String _ s' => is_substring p s'
  end.

Definition contains_nocase (pat : string) : option (string -> bool) :=
  Some (fun s => is_substring (lower pat) (lower s)).

End QuizEngine.

(** ** [app/quiz_engine.py], [analyze_performance], and the other handlers
    of [app/main.py] *)

Module Analysis.

(** [TypeError: unhashable type], raised when a value that cannot be
    hashed is used as a dict key. *)
Inductive TypeError : Type :=
  | Unhashable (type_name : string).

(** The number a key counts as, if it is a [bool] or an [int]: in a dict
    [True] and [1] are the same key, and so are [False] and [0]. *)
Definition key_number (v : JVal) : option Z :=
  match v with
  | JBool true => Some 1%Z
  | JBool false => Some 0%Z
  | JInt z => Some z
  | _ => None
  end.

(** Whether two hashable values are the same dict key. *)
Definition key_eq (a b : JVal) : bool :=
  match a, b with
  | JNull, JNull => true
  | JStr s, JStr t => String.eqb s t
  | _, _ =>
      match key_number a, key_number b with
      | Some x, Some y => (x =? y)%Z
      | _, _ => false
      end
  end.

(** [score_map]: a dict from topic to the list of its scores, in the
    order in which the topics were first seen. *)
Definition ScoreMap : Type := list (JVal * list nat).

(** [if topic not in score_map: score_map[topic] = []] followed by
    [score_map[topic].append(correct)]. *)
Fixpoint record_score (score_map : ScoreMap) (topic : JVal) (correct : nat) : ScoreMap :=
  match score_map with
  | [] => [(topic, [correct])]
  | (k, scores) :: rest =>
      if key_eq k topic then (k, scores ++ [correct]) :: rest
      else (k, scores) :: record_score rest topic correct
  end.

(** [1 if res.get('is_correct') else 0]. *)
Definition correct_of (res : Item) : nat :=
  match res !! "is_correct" with
  | Some v => if truthy v then 1 else 0
  | None => 0
  end.

(** The body of the first loop. *)
Definition score_one (score_map : ScoreMap) (res : Item) : TypeError + ScoreMap :=
  let topic := dict_get res "topic" (JStr "General") in
  let correct := correct_of res in
  match topic with
  | JDict _ => inl (Unhashable "dict")
  | _ => inr (record_score score_map topic correct)
  end.

(** [for res in results: ...]. *)
Fixpoint score_all (results : list Item) (score_map : ScoreMap) : TypeError + ScoreMap :=
  match results with
  | [] => inr score_map
  | res :: rest =>
      match score_one score_map res with
      | inl e => inl e
      | inr score_map' => score_all rest score_map'
      end
  end.

(** The line for one topic.  [avg = sum(scores) / len(scores)] is a
    float; for scores that are 0 or 1 and fewer than 2^53 of them,
    [avg < 0.5] holds exactly when [2 * sum < len], and [avg == 1.0]
    exactly when [sum = len].  The list of a topic is never empty. *)
Definition feedback_line (topic : JVal) (scores : list nat) : string :=
  let total := list_sum scores in
  let n := length scores in
  if (2 * total <? n)%nat then
    "Weakness detected in " +:+ py_str topic +:+ ". Review the lecture notes."
  else if (total =? n)%nat then
    "Perfect score in " +:+ py_str topic +:+ "! Moving to advanced mode."
  else
    "Good progress in " +:+ py_str topic +:+ ". Keep practicing.".

(** [analyze_performance(results)]. *)
Definition analyze_performance (results : list Item) : TypeError + string :=
  match results with
  | [] => inr "No data to analyze."
  | _ =>
      match score_all results [] with
      | inl e => inl e
      | inr score_map =>
          inr (join " " (map (fun kv => feedback_line kv.1 kv.2) score_map))
      end
  end.

(** [ResultItem] and [AnalysisRequest] of [app/models.py]. *)
Record ResultItem : Type := mkResultItem {
  question_id : string;
  topic : string;
  is_correct : bool
}.

(** [item.dict()]. *)
Definition item_dict (item : ResultItem) : Item :=
  {[ "question_id" := JStr (question_id item);
     "topic" := JStr (topic item);
     "is_correct" := JBool (is_correct item) ]}.

(** The handler of [POST /quiz/analyze]: the value of the [feedback]
    field of its answer. *)
Definition submit_results (results : list ResultItem) : TypeError + string :=
  let results_data := map item_dict results in
  analyze_performance results_data.

(** The handler of [GET /]: the fields of its answer. *)
Definition home : list (string * string) :=
  [("status", "Online"); ("message", "AI Tutor Backend is running")].

End Analysis.

(** ** Vocabulary of the statements *)

Import CleanData BuildDb RagEngine Main QuizEngine.

(** The record carries an [id]. *)
Definition has_id (item : Item) : Prop := is_Some (item !! "id").

(** [str(item['id'])] of a record that has an id. *)
Definition id_of (item : Item) : string := py_str (dict_get item "id" JNull).

(** The document that the first loop derives from a record. *)
Definition entry_of (item : Item) : Entry :=
  mkEntry (id_of item) (combined_text item) (metadata_of item).

(** The three lists after the first loop has seen every record. *)
Definition columns_of (data : list Item) : Columns :=
  (map id_of data, map combined_text data, map metadata_of data).

(** The slices taken at offset [i]. *)
Definition batch_at (cols : Columns) (i : nat) : Columns :=
  let '(ids, documents, metadatas) := cols in
  (slice ids i (i + batch_size), slice documents i (i + batch_size),
   slice metadatas i (i + batch_size)).

(** The batches of a run, in the order of the second loop. *)
Definition batches (cols : Columns) : list Columns :=
  map (batch_at cols) (py_range (length cols.1.1) batch_size).

(** Concatenation of batches, list by list. *)
Definition concat_batches (bs : list Columns) : Columns :=
  (concat (map (fun b => b.1.1) bs), concat (map (fun b => b.1.2) bs),
   concat (map (fun b => b.2) bs)).

(** The line printed after the batch at offset [i] has been added. *)
Definition batch_line (total_batches i : nat) : string :=
  "   Added batch " +:+ pretty (i / batch_size + 1) +:+ "/"
  +:+ pretty total_batches +:+ "...".

Section AddAll.
Context {C : Type} `{!VectorIndex C}.

(** Adding batches one after the other, stopping at the first call
    that raises: the state reached, the exception if any, and the
    number of batches added without one. *)
Fixpoint add_all (c : C) (bs : list Columns) : C * option Exception * nat :=
  match bs with
  | [] => (c, None, 0)
  | b :: rest =>
      match vi_add c b.1.1 b.1.2 b.2 with
      | (c', Some e) => (c', Some e, 0)
      | (c', None) =>
          let '(c'', err, n) := add_all c' rest in (c'', err, S n)
      end
  end.

(** How a run ends after the second loop. *)
Definition outcome_of (err : option Exception) : Exception + unit :=
  match err with
  | None => inr tt
  | Some e => inl e
  end.

(** The console lines of a run whose second loop went as [r] says. *)
Definition run_lines (data : list Item) (r : C * option Exception * nat)
  : list string :=
  ["Building Vector Database...";
   "Processing " +:+ pretty (length data) +:+ " items..."]
  ++ map (batch_line (length data / batch_size + 1))
         (take r.2 (py_range (length data) batch_size))
  ++ match r.1.2 with
     | None => ["Database built successfully in /vector_store!"]
     | Some _ => []
     end.
End AddAll.

(** Eligibility in the words of the specification (section 3): both
    [prompt] and [lecture] are present and non-empty. *)
Definition eligible (item : Item) : bool :=
  truthy (dict_get item "prompt" JNull) && truthy (dict_get item "lecture" JNull).

(** The ids stored in the index of a world. *)
Definition index_ids (w : World (list Entry)) : list string :=
  match store w with
  | Some c => stored_ids c
  | None => []
  end.

(** ** Concrete corpora and states for the examples *)

Module Examples.

Definition index : VectorIndex (list Entry) := MemIndex len_dist.

Definition record (id : Z) (prompt lecture topic : string) : Item :=
  {[ "id" := JInt id; "prompt" := JStr prompt; "lecture" := JStr lecture;
     "topic" := JStr topic ]}.

Definition mitosis : Item :=
  record 1 "What is mitosis?" "Mitosis is cell division." "Biology".

(** Scenario B of the specification: one record with an empty lecture. *)
Definition empty_lecture : Item :=
  {[ "id" := JInt 1; "prompt" := JStr "P1"; "lecture" := JStr "" ]}.

(** A record without an id. *)
Definition no_id : Item :=
  {[ "prompt" := JStr "What is inertia?"; "lecture" := JStr "Newton's first law." ]}.

Definition newton : Item :=
  record 2 "What is force?" "Force is mass times acceleration." "Physics".

Definition world_of (data : list Item) : World (list Entry) :=
  mkWorld None (Some data) None [].

(** A corpus of [n] records with the ids [0 .. n-1]. *)
Definition numbered (k : nat) : Item :=
  record (Z.of_nat k) "P" "L" "Science".

Definition corpus (n : nat) : list Item := map numbered (seq 0 n).

(** 1001 records, three batches; the record at position 501 repeats the
    id 500, so the second batch holds a duplicate id. *)
Definition corpus_dup : list Item :=
  map (fun k => if (k =? 501)%nat then numbered 500 else numbered k) (seq 0 1001).

(** The collection after the first batch of [corpus_dup], and after the
    call that tries to add its second batch. *)
Definition after_first_batch : list Entry :=
  (add_all (VectorIndex0 := index) (@vi_create _ index)
           (map (batch_at (columns_of corpus_dup)) [0])).1.1.

Definition after_second_batch : list Entry :=
  (vi_add (VectorIndex := index) after_first_batch
          (batch_at (columns_of corpus_dup) 500).1.1
          (batch_at (columns_of corpus_dup) 500).1.2
          (batch_at (columns_of corpus_dup) 500).2).1.

(** A raw frame with one complete row, one with an empty-string lecture
    and one with a missing lecture. *)
Definition raw_frame : DataFrame :=
  {| columns := ["id"; "prompt"; "lecture"; "topic"; "A"; "B"];
     rows := [ {[ "id" := JInt 1; "prompt" := JStr "P1"; "lecture" := JStr "L1";
                  "topic" := JStr "Biology"; "A" := JStr "yes"; "B" := JStr "no" ]};
               {[ "id" := JInt 2; "prompt" := JStr "P2"; "lecture" := JStr "";
                  "topic" := JStr "Physics"; "A" := JStr "yes"; "B" := JNull ]};
               {[ "id" := JInt 3; "prompt" := JStr "P3"; "lecture" := JNull;
                  "topic" := JStr "Physics"; "A" := JNull; "B" := JNull ]} ] |}.

(** A store holding the documents of [mitosis] and [newton]. *)
Definition two_docs : list Entry := [entry_of mitosis; entry_of newton].

Definition ask (q : string) : QueryRequest := mkQueryRequest q None.

(** The frame of the quiz engine with two records. *)
Definition quiz_frame : DataFrame :=
  {| columns := ["id"; "prompt"; "lecture"; "topic"];
     rows := [mitosis; newton] |}.

(** The same two records with numbers in the [topic] column: a column
    without a single string. *)
Definition numeric_topics : DataFrame :=
  {| columns := ["id"; "prompt"; "lecture"; "topic"];
     rows := [ <["topic" := JInt 7]> mitosis; <["topic" := JInt 8]> newton ] |}.

Definition first_row (k : nat) : nat := 0.

End Examples.

(** ** Vocabulary of the further statements *)

Import Analysis.

(** The row has a prompt and a lecture that are not missing. *)
Definition present (row : Item) : bool :=
  notna (cell row "prompt") && notna (cell row "lecture").

(** The wanted columns that the frame has once [choices] is assigned. *)
Definition existing_cols (df : DataFrame) : list string :=
  filter (fun c => c ∈ columns (assign_choices df)) wanted_cols.

(** The record that [clean_data] writes for a row it keeps. *)
Definition clean_row (df : DataFrame) (row : Item) : Item :=
  list_to_map
    (map (fun c => (c, cell (<["choices" := format_choices (columns df) row]> row) c))
         (existing_cols df)).

(** The elements of a list in the order of their first occurrence. *)
Fixpoint distinct (l : list string) : list string :=
  match l with
  | [] => []
  | x :: rest => x :: filter (fun y => y <> x) (distinct rest)
  end.

(** The topic of a result dict, as text. *)
Definition topic_text (res : Item) : string :=
  py_str (dict_get res "topic" (JStr "General")).

(** The scores of the results of one topic, in the order of the results. *)
Definition scores_of (t : string) (results : list Item) : list nat :=
  map correct_of (filter (fun res => topic_text res = t) results).

(** The feedback built topic by topic, in the order of first occurrence. *)
Definition grouped_feedback (results : list Item) : string :=
  join " " (map (fun t => feedback_line (JStr t) (scores_of t results))
                (distinct (map topic_text results))).

(** The answers given for a topic and the correct ones among them. *)
Definition answers_for (t : string) (results : list ResultItem) : list ResultItem :=
  filter (fun r => topic r = t) results.

Definition correct_for (t : string) (results : list ResultItem) : list ResultItem :=
  filter (fun r => is_correct r = true) (answers_for t results).

(** Whether the topic cell of a row is a string that [matches]. *)
Definition topic_matches (matches : string -> bool) (row : Item) : bool :=
  match row !! "topic" with
  | Some (JStr s) => matches s
  | _ => false
  end.

(** The rows of a frame whose topic matches. *)
Definition matching_rows (matches : string -> bool) (df : DataFrame) : list Item :=
  filter (fun row => topic_matches matches row = true) (rows df).

Module MoreExamples.
Import Examples.

(** The payload of the analytics check of [app/test_api.py]. *)
Definition analytics_payload : list ResultItem :=
  [ mkResultItem "1" "Biology" false; mkResultItem "2" "Biology" false;
    mkResultItem "3" "Physics" true; mkResultItem "4" "Physics" true ].

(** A frame without a [lecture] column. *)
Definition frame_without_lecture : DataFrame :=
  {| columns := ["id"; "prompt"];
     rows := [ {[ "id" := JInt 1; "prompt" := JStr "P1" ]} ] |}.

Definition raw_world : World (list Entry) :=
  mkWorld (Some raw_frame) None None [].

(** A world whose collection already holds a document. *)
Definition stale_world (data : list Item) : World (list Entry) :=
  mkWorld None (Some data) (Some [mkEntry "old" "stale text" ∅]) [].

(** Two records whose ids print the same. *)
Definition same_printed_id : list Item :=
  [ {[ "id" := JInt 7; "prompt" := JStr "a" ]};
    {[ "id" := JStr "7"; "prompt" := JStr "b" ]} ].

End MoreExamples.

(** * Properties *)

(** ** Slices and ranges *)

Section SliceFacts.
Context {A : Type}.
Implicit Types l : list A.

Lemma slice_step l i b : slice l i (i + b) = take b (drop i l).
Proof. unfold slice. by replace (i + b - i) with b by lia. Qed.

Lemma length_slice_step l i b : length (slice l i (i + b)) = b `min` (length l - i).
Proof. by rewrite slice_step, length_take, length_drop. Qed.

(** The first [m] chunks of size [b] make up the first [m * b] elements. *)
Lemma concat_chunks l b m :
  concat (map (fun i => slice l i (i + b)) (map (fun k => k * b) (seq 0 m)))
  = take (m * b) l.
Proof.
  induction m as [|m IH]; [done|].
  rewrite seq_S, !map_app, concat_app, IH. simpl.
  rewrite app_nil_r, slice_step, take_take_drop.
  f_equal. lia.
Qed.

Lemma slice_lookup l i b k x :
  slice l i (i + b) !! k = Some x -> l !! (i + k) = Some x.
Proof.
  rewrite slice_step. intros Hk.
  assert (k < b) as Hlt.
  { apply lookup_lt_Some in Hk. rewrite length_take in Hk. lia. }
  rewrite lookup_take_lt in Hk by done. by rewrite lookup_drop in Hk.
Qed.
End SliceFacts.

Lemma range_count_covers n b : 0 < b -> n <= (n + b - 1) / b * b.
Proof.
  intros Hb.
  pose proof (Nat.div_mod_eq (n + b - 1) b) as Hdm.
  pose proof (Nat.mod_upper_bound (n + b - 1) b) as Hub.
  nia.
Qed.

Lemma elem_of_py_range i n b :
  0 < b -> i ∈ py_range n b -> i < n /\ i mod b = 0.
Proof.
  intros Hb Hi. unfold py_range in Hi.
  apply list_elem_of_In, in_map_iff in Hi as (k & <- & Hk).
  apply list_elem_of_In, elem_of_seq in Hk.
  pose proof (Nat.div_mod_eq (n + b - 1) b) as Hdm.
  pose proof (Nat.mod_upper_bound (n + b - 1) b) as Hub.
  split; [nia|]. apply Nat.Div0.mod_mul.
Qed.

Lemma concat_range_slices {A} (l : list A) b :
  0 < b ->
  concat (map (fun i => slice l i (i + b)) (py_range (length l) b)) = l.
Proof.
  intros Hb. unfold py_range. rewrite concat_chunks.
  apply take_ge, range_count_covers, Hb.
Qed.

(** ** The first loop of [build_knowledge_base] *)

Lemma collect_all data ids docs metas :
  Forall has_id data ->
  collect data (ids, docs, metas)
  = inr (ids ++ map id_of data, docs ++ map combined_text data,
         metas ++ map metadata_of data).
Proof.
  intros Hall. revert ids docs metas.
  induction Hall as [|item rest [v Hv] _ IH]; intros ids docs metas; simpl.
  - by rewrite !app_nil_r.
  - rewrite Hv, IH. unfold id_of, dict_get. rewrite Hv.
    by rewrite <- !app_assoc.
Qed.

Lemma collect_missing data acc :
  Exists (fun item => item !! "id" = None) data ->
  collect data acc = inl (KeyError "id").
Proof.
  intros Hex. revert acc.
  induction data as [|item rest IH]; intros [[ids docs] metas].
  - by apply Exists_nil in Hex.
  - simpl. destruct (item !! "id") as [v|] eqn:Hv; [|done].
    apply IH. apply Exists_cons in Hex as [Hitem|Hrest]; [congruence|done].
Qed.

(** ** The batches *)

Lemma batch_size_pos : 0 < batch_size.
Proof. unfold batch_size. lia. Qed.

Lemma concat_column_slices {B} (f : Item -> B) data :
  concat (map (fun i => slice (map f data) i (i + batch_size))
              (py_range (length (map id_of data)) batch_size))
  = map f data.
Proof.
  rewrite length_map, <- (length_map f data).
  apply concat_range_slices, batch_size_pos.
Qed.

Lemma batches_concat data :
  concat_batches (batches (columns_of data)) = columns_of data.
Proof.
  unfold concat_batches, batches, columns_of, batch_at. simpl.
  rewrite !map_map. simpl.
  by rewrite !concat_column_slices.
Qed.

Lemma batch_at_lengths data i :
  i < length data ->
  let b := batch_at (columns_of data) i in
  0 < length b.1.1 <= batch_size /\
  length b.1.2 = length b.1.1 /\ length b.2 = length b.1.1.
Proof.
  intros Hi. simpl. rewrite !length_slice_step, !length_map.
  pose proof batch_size_pos. lia.
Qed.

Lemma batches_sizes data :
  Forall (fun b : Columns =>
            0 < length b.1.1 <= batch_size /\
            length b.1.2 = length b.1.1 /\ length b.2 = length b.1.1)
         (batches (columns_of data)).
Proof.
  unfold batches. apply Forall_forall. intros b Hb.
  apply list_elem_of_In, in_map_iff in Hb as (i & <- & Hi).
  apply list_elem_of_In, elem_of_py_range in Hi as [Hi _]; [|apply batch_size_pos].
  apply batch_at_lengths. simpl in Hi. by rewrite length_map in Hi.
Qed.

(** ** A run of [build_knowledge_base], step by step *)

Section BuildRun.
Context {C : Type} `{!VectorIndex C}.

Lemma add_batch_eq cols total i (w : World C) c :
  store w = Some c ->
  (batch_at cols i).1.1 <> [] ->
  add_batch cols total i w =
    let r := vi_add c (batch_at cols i).1.1 (batch_at cols i).1.2 (batch_at cols i).2 in
    match r.2 with
    | Some e => (inl e, mkWorld (csv_file w) (json_file w) (Some r.1) (stdout w))
    | None => (inr tt, mkWorld (csv_file w) (json_file w) (Some r.1)
                               (stdout w ++ [batch_line total i]))
    end.
Proof.
  intros Hst Hne. destruct cols as [[ids docs] metas].
  unfold add_batch, batch_at in *. cbn [fst snd] in *.
  destruct (slice ids i (i + batch_size)) as [|x xs] eqn:E; [done|].
  unfold bind, collection_add, bind, get_world. rewrite Hst.
  destruct (vi_add c (x :: xs) _ _) as [c' [e|]]; reflexivity.
Qed.

Lemma loop_add_all cols total offs : forall (w : World C) c,
  store w = Some c ->
  Forall (fun i => (batch_at cols i).1.1 <> []) offs ->
  for_each offs (add_batch cols total) w =
    let r := add_all c (map (batch_at cols) offs) in
    (outcome_of r.1.2,
     mkWorld (csv_file w) (json_file w) (Some r.1.1)
             (stdout w ++ map (batch_line total) (take r.2 offs))).
Proof.
  induction offs as [|i offs IH]; intros w c Hst Hne.
  - destruct w; simpl in *; subst. unfold ret. by rewrite app_nil_r.
  - apply Forall_cons in Hne as [Hi Hne].
    cbn [for_each]. unfold bind at 1.
    rewrite (add_batch_eq _ _ _ _ c) by done.
    cbn [map add_all].
    destruct (vi_add c _ _ _) as [c' [e|]]; cbn [fst snd].
    + by rewrite app_nil_r.
    + rewrite (IH _ c') by done. cbn [csv_file json_file store stdout].
      destruct (add_all c' _) as [[c'' err] n]. cbn [fst snd take map].
      by rewrite <- app_assoc.
Qed.

Lemma batch_offsets_nonempty data :
  Forall (fun i => (batch_at (columns_of data) i).1.1 <> [])
         (py_range (length data) batch_size).
Proof.
  apply Forall_forall. intros i Hi.
  apply elem_of_py_range in Hi as [Hi _]; [|apply batch_size_pos].
  pose proof (batch_at_lengths data i Hi) as [Hlen _].
  intros Hnil. rewrite Hnil in Hlen. simpl in Hlen. lia.
Qed.

Lemma build_run (w : World C) data :
  json_file w = Some data ->
  Forall has_id data ->
  build_knowledge_base w =
    let r := add_all vi_create (batches (columns_of data)) in
    (outcome_of r.1.2,
     mkWorld (csv_file w) (Some data) (Some r.1.1) (stdout w ++ run_lines data r)).
Proof.
  intros Hjson Hids. destruct w as [csv json st out]. simpl in Hjson. subst json.
  destruct st as [c0|].
  all: unfold build_knowledge_base, try_except, delete_collection, create_collection,
    print, get_world, set_store, raise, bind, ret.
  all: cbn [csv_file json_file store stdout].
  all: rewrite (collect_all data [] [] []) by done.
  all: cbn [app lift ret]; unfold ret.
  all: fold (columns_of data).
  all: rewrite (loop_add_all _ _ _ _ vi_create);
      [|reflexivity|cbn [columns_of fst]; rewrite length_map; apply batch_offsets_nonempty].
  all: cbn zeta; cbn [csv_file json_file store stdout].
  all: unfold batches, run_lines; cbn [columns_of fst]; rewrite !length_map.
  all: fold (columns_of data).
  all: destruct (add_all vi_create _) as [[c' [e|]] n]; cbn [fst snd outcome_of].
  all: cbn [csv_file json_file store stdout].
  all: f_equal; f_equal; rewrite <- ?app_assoc; simpl; by rewrite ?app_nil_r.
Qed.

Lemma build_missing_id (w : World C) data :
  json_file w = Some data ->
  Exists (fun item => item !! "id" = None) data ->
  build_knowledge_base w =
    (inl (KeyError "id"),
     mkWorld (csv_file w) (Some data) (Some vi_create)
       (stdout w ++ ["Building Vector Database...";
                     "Processing " +:+ pretty (length data) +:+ " items..."])).
Proof.
  intros Hjson Hex. destruct w as [csv json st out]. simpl in Hjson. subst json.
  destruct st as [c0|].
  all: unfold build_knowledge_base, try_except, delete_collection, create_collection,
    print, get_world, set_store, raise, bind, ret.
  all: cbn [csv_file json_file store stdout].
  all: rewrite collect_missing by done.
  all: cbn [lift]; unfold raise.
  all: by rewrite <- app_assoc.
Qed.
End BuildRun.

(** ** The in-memory collection *)

Lemma remove_dups_nil {A} `{EqDecision A} (l : list A) : remove_dups l = [] -> l = [].
Proof.
  induction l as [|x l IH]; [done|]. simpl.
  destruct (decide_rel elem_of x l) as [Hin|Hnin]; [|done].
  intros Hnil. rewrite (IH Hnil) in Hin. by apply elem_of_nil in Hin.
Qed.

Lemma dup_ids_nil seen ids :
  dup_ids seen ids = [] -> NoDup ids /\ (forall x, x ∈ ids -> x ∉ seen).
Proof.
  revert seen. induction ids as [|x ids IH]; intros seen Hnil; simpl in Hnil.
  - split; [constructor|]. intros x Hx. by apply elem_of_nil in Hx.
  - destruct (bool_decide (x ∈ seen)) eqn:Hseen; [done|].
    apply bool_decide_eq_false in Hseen.
    destruct (IH _ Hnil) as [Hnd Hfresh]. split.
    + constructor; [|done]. intros Hin. apply (Hfresh x Hin). left.
    + intros y Hy. apply elem_of_cons in Hy as [->|Hy]; [done|].
      intros Hys. apply (Hfresh y Hy). by right.
Qed.

Lemma zip_entries_ids ids docs metas :
  length docs = length ids -> length metas = length ids ->
  stored_ids (zip_entries ids docs metas) = ids.
Proof.
  revert docs metas. induction ids as [|i ids IH]; intros [|d docs] [|m metas]; simpl; try done.
  intros Hd Hm. f_equal. apply IH; lia.
Qed.

Lemma zip_entries_lookup ids docs metas k e :
  zip_entries ids docs metas !! k = Some e ->
  ids !! k = Some (e_id e) /\ docs !! k = Some (e_doc e) /\ metas !! k = Some (e_meta e).
Proof.
  revert docs metas k.
  induction ids as [|i ids IH]; intros [|d docs] [|m metas] k; simpl; try done.
  destruct k as [|k]; simpl.
  - intros [= <-]. done.
  - apply IH.
Qed.

Lemma mem_add_ok c ids docs metas c' :
  mem_add c ids docs metas = (c', None) ->
  NoDup ids /\ length docs = length ids /\ length metas = length ids /\
  c' = c ++ filter (fun e => e_id e ∉ stored_ids c) (zip_entries ids docs metas).
Proof.
  unfold mem_add. destruct ids as [|i ids]; [done|].
  destruct (bool_decide (length docs = length (i :: ids))) eqn:Hd; [|done].
  destruct (bool_decide (length metas = length (i :: ids))) eqn:Hm; [|done].
  apply bool_decide_eq_true in Hd, Hm. cbn [negb orb].
  destruct (remove_dups (dup_ids [] (i :: ids))) eqn:Hdup; [|done].
  intros [= <-]. apply remove_dups_nil, dup_ids_nil in Hdup as [Hnd _].
  done.
Qed.

Lemma NoDup_ids_filter (P : Entry -> Prop) `{forall e, Decision (P e)} (l : list Entry) :
  NoDup (stored_ids l) -> NoDup (stored_ids (filter P l)).
Proof.
  unfold stored_ids. induction l as [|e l IH]; simpl; [done|].
  intros Hnd. apply NoDup_cons in Hnd as [Hnin Hnd].
  rewrite filter_cons. destruct (decide (P e)); simpl; [|by apply IH].
  apply NoDup_cons. split; [|by apply IH].
  intros Hin. apply Hnin.
  apply list_elem_of_In, in_map_iff in Hin as (e' & He' & Hin).
  apply list_elem_of_In, list_elem_of_filter in Hin as [_ Hin].
  apply list_elem_of_In, in_map_iff. exists e'. split; [done|]. by apply list_elem_of_In.
Qed.

Lemma mem_add_NoDup c ids docs metas c' :
  mem_add c ids docs metas = (c', None) ->
  NoDup (stored_ids c) -> NoDup (stored_ids c').
Proof.
  intros Hadd Hnd. apply mem_add_ok in Hadd as (Hids & Hd & Hm & ->).
  unfold stored_ids. rewrite map_app. apply NoDup_app. split; [done|]. split.
  - intros x Hx Hx'.
    apply list_elem_of_In, in_map_iff in Hx' as (e & <- & He).
    apply list_elem_of_In, list_elem_of_filter in He as [Hfresh _]. by apply Hfresh.
  - apply NoDup_ids_filter. by rewrite zip_entries_ids.
Qed.

Lemma mem_add_entries c ids docs metas c' e :
  mem_add c ids docs metas = (c', None) ->
  e ∈ c' -> e ∈ c \/ e ∈ zip_entries ids docs metas.
Proof.
  intros Hadd He. apply mem_add_ok in Hadd as (_ & _ & _ & ->).
  apply elem_of_app in He as [He|He]; [by left|right].
  by apply list_elem_of_filter in He as [_ He].
Qed.

Lemma mem_add_ids c ids docs metas c' x :
  mem_add c ids docs metas = (c', None) ->
  x ∈ stored_ids c \/ x ∈ ids -> x ∈ stored_ids c'.
Proof.
  intros Hadd Hx. apply mem_add_ok in Hadd as (_ & Hd & Hm & ->).
  unfold stored_ids. rewrite map_app. apply elem_of_app.
  destruct (decide (x ∈ stored_ids c)) as [Hin|Hnin]; [by left|right].
  destruct Hx as [Hx|Hx]; [done|].
  rewrite <- (zip_entries_ids ids docs metas Hd Hm) in Hx.
  apply list_elem_of_In, in_map_iff in Hx as (e & <- & He).
  apply list_elem_of_In, in_map_iff. exists e. split; [done|].
  apply list_elem_of_In, list_elem_of_filter. split; [done|]. by apply list_elem_of_In.
Qed.

Lemma batch_entry_from_data data i e :
  let b := batch_at (columns_of data) i in
  e ∈ zip_entries b.1.1 b.1.2 b.2 ->
  exists item, item ∈ data /\ e = entry_of item.
Proof.
  simpl. intros He. apply list_elem_of_lookup in He as [k Hk].
  apply zip_entries_lookup in Hk as (Hi & Hd & Hm).
  apply slice_lookup in Hi, Hd, Hm.
  change (map id_of data) with (id_of <$> data) in Hi.
  change (map combined_text data) with (combined_text <$> data) in Hd.
  change (map metadata_of data) with (metadata_of <$> data) in Hm.
  rewrite list_lookup_fmap in Hi. rewrite list_lookup_fmap in Hd.
  rewrite list_lookup_fmap in Hm.
  destruct (data !! (i + k)) as [item|] eqn:Hitem; [|done].
  simpl in Hi, Hd, Hm. exists item. split.
  - apply list_elem_of_lookup. by exists (i + k).
  - destruct e as [x y z]. simpl in *. unfold entry_of. congruence.
Qed.

Lemma data_id_in_batches data item :
  item ∈ data ->
  exists b, b ∈ batches (columns_of data) /\ id_of item ∈ b.1.1.
Proof.
  intros Hitem.
  assert (id_of item ∈ concat (map (fun b : Columns => b.1.1) (batches (columns_of data))))
    as Hin.
  { assert (concat (map (fun b : Columns => b.1.1) (batches (columns_of data)))
            = map id_of data) as ->.
    { exact (f_equal (fun c : Columns => c.1.1) (batches_concat data)). }
    apply list_elem_of_In, in_map. by apply list_elem_of_In. }
  apply list_elem_of_In, in_concat in Hin as (l & Hl & Hx).
  apply in_map_iff in Hl as (b & <- & Hb).
  exists b. split; by apply list_elem_of_In.
Qed.

Lemma ids_present_or_missing (data : list Item) :
  Forall has_id data \/ Exists (fun item => item !! "id" = None) data.
Proof.
  induction data as [|item data [IH|IH]].
  - left. constructor.
  - destruct (item !! "id") as [v|] eqn:Hv.
    + left. constructor; [by exists v|done].
    + right. by left.
  - right. by right.
Qed.

Section MemRun.
Variable dist : string -> string -> nat.

Lemma mem_add_all_inv bs : forall c c' n,
  add_all (VectorIndex0 := MemIndex dist) c bs = (c', None, n) ->
  NoDup (stored_ids c) ->
  NoDup (stored_ids c') /\
  (forall e, e ∈ c' -> e ∈ c \/ exists b, b ∈ bs /\ e ∈ zip_entries b.1.1 b.1.2 b.2) /\
  (forall x, x ∈ stored_ids c \/ (exists b, b ∈ bs /\ x ∈ b.1.1) -> x ∈ stored_ids c') /\
  n = length bs.
Proof.
  induction bs as [|b bs IH]; intros c c' n Hall Hnd; simpl in Hall.
  - injection Hall as <- <-. split; [done|]. split; [by left|]. split; [|done].
    intros x [Hx|(b & Hb & _)]; [done|]. by apply elem_of_nil in Hb.
  - destruct (mem_add c b.1.1 b.1.2 b.2) as [c1 [e|]] eqn:Hadd; [done|].
    destruct (add_all c1 bs) as [[c2 err] m] eqn:Hrest.
    injection Hall as <- -> <-.
    destruct (IH _ _ _ Hrest (mem_add_NoDup _ _ _ _ _ Hadd Hnd))
      as (Hnd' & Hent & Hids & ->).
    split; [done|]. split; [|split; [|done]].
    + intros e He. destruct (Hent e He) as [He1|(b' & Hb' & He')].
      * destruct (mem_add_entries _ _ _ _ _ _ Hadd He1) as [?|?]; [by left|].
        right. exists b. split; [left|done].
      * right. exists b'. split; [by right|done].
    + intros x Hx. apply Hids. destruct Hx as [Hx|(b' & Hb' & Hx)].
      * left. apply (mem_add_ids _ _ _ _ _ _ Hadd). by left.
      * apply elem_of_cons in Hb' as [->|Hb'].
        -- left. apply (mem_add_ids _ _ _ _ _ _ Hadd). by right.
        -- right. by exists b'.
Qed.

(** What the collection holds after a run that ended normally. *)
Lemma mem_build_contents (w : World (list Entry)) data :
  json_file w = Some data ->
  (build_knowledge_base (VectorIndex0 := MemIndex dist) w).1 = inr tt ->
  exists c',
    store (build_knowledge_base (VectorIndex0 := MemIndex dist) w).2 = Some c' /\
    Forall has_id data /\
    NoDup (stored_ids c') /\
    (forall e, e ∈ c' -> exists item, item ∈ data /\ e = entry_of item) /\
    (forall item, item ∈ data -> id_of item ∈ stored_ids c').
Proof.
  intros Hjson Hok.
  destruct (ids_present_or_missing data) as [Hids|Hmiss].
  2: { by rewrite (build_missing_id w data Hjson Hmiss) in Hok. }
  rewrite (build_run w data Hjson Hids) in Hok |- *. cbn zeta in *.
  destruct (add_all vi_create (batches (columns_of data))) as [[c' err] n] eqn:Hall.
  cbn [fst snd store] in *. destruct err as [e|]; [done|].
  exists c'. split; [done|]. split; [done|].
  destruct (mem_add_all_inv _ _ _ _ Hall) as (Hnd & Hent & Hcov & _); [constructor|].
  split; [done|]. split.
  - intros e He. destruct (Hent e He) as [Hnil|(b & Hb & Hin)].
    + by apply elem_of_nil in Hnil.
    + apply list_elem_of_In, in_map_iff in Hb as (i & <- & _).
      by apply (batch_entry_from_data data i).
  - intros item Hitem. apply Hcov. right. by apply data_id_in_batches.
Qed.
End MemRun.

(** ** The query pipeline *)

Section Retrieval.
Context {C : Type} `{!VectorIndex C}.

(** With no document returned, [search_knowledge] hands back the bare
    message, not a pair. *)
Lemma search_knowledge_empty (c : C) query n results rest :
  vi_query c [query] n = inr results ->
  documents results = [] :: rest ->
  search_knowledge c query n = inr (RetStr "No relevant textbook info found.").
Proof. intros Hq Hdocs. unfold search_knowledge. by rewrite Hq, Hdocs. Qed.

(** ... and the handler turns the failed unpacking into an HTTP 500. *)
Lemma retrieve_context_empty (request : QueryRequest) (app : App C) results rest :
  vi_query (collection app) [question_text request] 2 = inr results ->
  documents results = [] :: rest ->
  (retrieve_context request app).1 =
    inl {| status_code := 500;
           detail := "too many values to unpack (expected 2)" |}.
Proof.
  intros Hq Hdocs. unfold retrieve_context. cbn [log collection].
  by rewrite (search_knowledge_empty _ _ _ _ _ Hq Hdocs).
Qed.

(** C5: when the search returns the documents [d :: ds] (nearest
    first) with the metadata [Some m :: ms], and the dict [m] has the
    topic [t], the response carries the documents joined by single
    spaces, in that order, and the topic [t] of the nearest result,
    whatever the metadata [ms] of the other results are. *)
Theorem C5_context_joined_topic_of_nearest
    (request : QueryRequest) (app : App C) d ds m ms rest_docs rest_metas t :
  vi_query (collection app) [question_text request] 2
    = inr {| documents := (d :: ds) :: rest_docs;
             metadatas := (Some m :: ms) :: rest_metas |} ->
  m !! "topic" = Some t ->
  (retrieve_context request app).1 =
    inr {| answer_context := join " " (d :: ds);
           source_topic := t;
           confidence_score := mkDecimal 95 (-2) |}.
Proof.
  intros Hq Ht. unfold retrieve_context, search_knowledge. cbn [log collection].
  rewrite Hq. cbn [documents metadatas lookup list_lookup]. by rewrite Ht.
Qed.

End Retrieval.

(** C1: against an empty collection the handler of [/retrieve] answers
    with an HTTP 500 error: [search_knowledge] returns the bare message
    and unpacking it into [context, topic] raises [ValueError]. *)
Theorem C1_empty_index_gives_http_500 :
  retrieve_context (VectorIndex0 := Examples.index)
    (Examples.ask "How do cells divide?") (mkApp (@vi_create _ Examples.index) [])
  = (inl {| status_code := 500;
            detail := "too many values to unpack (expected 2)" |},
     mkApp [] ["Received query: How do cells divide?";
               "Error: too many values to unpack (expected 2)"]).
Proof. reflexivity. Qed.

Lemma C5_witness :
  (retrieve_context (VectorIndex0 := Examples.index)
     (Examples.ask "Why does a heavier object need a larger force to reach the same acceleration?")
     (mkApp Examples.two_docs [])).1
  = inr {| answer_context :=
             join " " [combined_text Examples.newton; combined_text Examples.mitosis];
           source_topic := "Physics";
           confidence_score := mkDecimal 95 (-2) |}.
Proof.
  apply (C5_context_joined_topic_of_nearest (VectorIndex0 := Examples.index)
           (Examples.ask "Why does a heavier object need a larger force to reach the same acceleration?")
           (mkApp Examples.two_docs [])
           (combined_text Examples.newton) [combined_text Examples.mitosis]
           (metadata_of Examples.newton) [Some (metadata_of Examples.mitosis)] [] []
           "Physics").
  - reflexivity.
  - reflexivity.
Defined.

(** ** The ingestion pipeline over any vector store *)

Section Ingestion.
Context {C : Type} `{!VectorIndex C}.

Lemma add_all_count bs : forall (c c' : C) n,
  add_all c bs = (c', None, n) -> n = length bs.
Proof.
  induction bs as [|b bs IH]; intros c c' n; simpl.
  - by intros [= _ <-].
  - destruct (vi_add c _ _ _) as [c1 [e|]]; [done|].
    destruct (add_all c1 bs) as [[c2 err] m] eqn:Hrest.
    intros [= -> -> <-]. f_equal. by apply (IH c1 c').
Qed.

(** A batch that raises ends the sequence: what follows it is not added. *)
Lemma add_all_stops pre b post : forall (c c1 c2 : C) e,
  (add_all c pre).1 = (c1, None) ->
  vi_add c1 b.1.1 b.1.2 b.2 = (c2, Some e) ->
  add_all c (pre ++ b :: post) = (c2, Some e, length pre).
Proof.
  induction pre as [|a pre IH]; intros c c1 c2 e Hpre Hb; simpl in *.
  - injection Hpre as ->. by rewrite Hb.
  - destruct (vi_add c _ _ _) as [c' [e'|]]; [done|].
    destruct (add_all c' pre) as [[c'' err] m] eqn:Hrest. simpl in Hpre.
    injection Hpre as -> ->.
    rewrite (IH c' c1 c2 e); [done| |done]. by rewrite Hrest.
Qed.

(** C3 (as amended): a record without an id is not dropped.  The
    lookup [item['id']] raises [KeyError] while the documents are
    being built: the run ends with that exception before any batch is
    added, and leaves the collection as it was recreated, with none of
    the records of the corpus in it.  A corpus in which every record
    has an id loses no record in that loop, whatever other fields are
    absent. *)
Theorem C3_record_without_id_aborts_run (w : World C) data :
  json_file w = Some data ->
  (Exists (fun item => item !! "id" = None) data ->
   build_knowledge_base w =
     (inl (KeyError "id"),
      mkWorld (csv_file w) (Some data) (Some vi_create)
        (stdout w ++ ["Building Vector Database...";
                      "Processing " +:+ pretty (length data) +:+ " items..."]))) /\
  (Forall has_id data ->
   collect data ([], [], []) = inr (columns_of data) /\
   length (columns_of data).1.1 = length data).
Proof.
  intros Hjson. split.
  - intros Hmiss. by apply build_missing_id.
  - intros Hids. split.
    + by rewrite (collect_all data [] [] []).
    + simpl. by rewrite length_map.
Qed.

(** C4 (as amended): when the call that adds a batch raises, nothing
    catches it.  The run ends with that exception; the collection is
    left as the failed call left it, so the batches after it are never
    added; the console shows the lines of the batches added before it,
    no warning and no final message. *)
Theorem C4_failed_batch_aborts_run (w : World C) data pre i post c1 c2 e :
  json_file w = Some data ->
  Forall has_id data ->
  py_range (length data) batch_size = pre ++ i :: post ->
  (add_all vi_create (map (batch_at (columns_of data)) pre)).1 = (c1, None) ->
  vi_add c1 (batch_at (columns_of data) i).1.1 (batch_at (columns_of data) i).1.2
            (batch_at (columns_of data) i).2 = (c2, Some e) ->
  build_knowledge_base w =
    (inl e,
     mkWorld (csv_file w) (Some data) (Some c2)
       (stdout w ++ ["Building Vector Database...";
                     "Processing " +:+ pretty (length data) +:+ " items..."]
                 ++ map (batch_line (length data / batch_size + 1)) pre)).
Proof.
  intros Hjson Hids Hrange Hpre Hfail.
  rewrite (build_run w data Hjson Hids). cbn zeta.
  unfold batches, run_lines. cbn [columns_of fst]. rewrite length_map.
  fold (columns_of data). rewrite Hrange, map_app. cbn [map].
  rewrite (add_all_stops _ _ _ _ c1 c2 e Hpre Hfail). cbn [fst snd outcome_of].
  rewrite length_map, take_app_length. by rewrite app_nil_r.
Qed.

(** C8 (as amended): the documents of all the records of the corpus,
    with no eligibility filter, are cut into consecutive batches of at
    most 500 (none empty, ids, texts and metadata cut alike) whose
    concatenation is the whole sequence in record order; the run adds
    these batches one after the other to the recreated collection, up
    to the first call that raises. *)
Theorem C8_batches_partition_all_records (w : World C) data :
  json_file w = Some data ->
  Forall has_id data ->
  concat_batches (batches (columns_of data)) = columns_of data /\
  Forall (fun b : Columns =>
            0 < length b.1.1 <= 500 /\
            length b.1.2 = length b.1.1 /\ length b.2 = length b.1.1)
         (batches (columns_of data)) /\
  store (build_knowledge_base w).2
    = Some (add_all vi_create (batches (columns_of data))).1.1 /\
  (build_knowledge_base w).1
    = outcome_of (add_all vi_create (batches (columns_of data))).1.2.
Proof.
  intros Hjson Hids. split; [apply batches_concat|].
  split; [apply batches_sizes|].
  by rewrite (build_run w data Hjson Hids).
Qed.
End Ingestion.

(** ** The cleaning step *)

Lemma clean_data_run {C} (w : World C) df :
  csv_file w = Some df ->
  clean_data w =
    let df1 := assign_choices df in
    let existing_cols := filter (fun c => c ∈ columns df1) wanted_cols in
    match dropna ["prompt"; "lecture"] (select df1 existing_cols) with
    | inl e =>
        (inl e, mkWorld (csv_file w) (json_file w) (store w)
                  (stdout w ++ ["Starting data cleaning..."]))
    | inr df_clean =>
        (inr tt,
         mkWorld (csv_file w) (Some (rows df_clean)) (store w)
           (stdout w ++ ["Starting data cleaning...";
                         "Success! Saved " +:+ pretty (length (rows df_clean))
                         +:+ " questions to " +:+ OUTPUT_FILE]))
    end.
Proof.
  intros Hcsv. destruct w as [csv json st out]. simpl in Hcsv. subst csv.
  unfold clean_data, print, get_world, write_json, bind.
  cbn [csv_file json_file store stdout]. cbn zeta.
  destruct (dropna _ _) as [e|d]; cbn [lift]; unfold raise, ret.
  - done.
  - cbn [csv_file json_file store stdout]. by rewrite <- app_assoc.
Qed.

Lemma dropna_rows subset df df' row :
  dropna subset df = inr df' ->
  row ∈ rows df' ->
  row ∈ rows df /\ forallb (fun c => notna (cell row c)) subset = true.
Proof.
  unfold dropna. destruct (filter _ subset); [|done].
  intros [= <-]. simpl. intros Hrow.
  by apply list_elem_of_filter in Hrow as [? ?].
Qed.

(** The records written by [clean_data] have a prompt and a lecture
    that are not missing. *)
Lemma clean_data_records {C} (w : World C) df :
  csv_file w = Some df ->
  (clean_data w).1 = inr tt ->
  exists recs,
    json_file (clean_data w).2 = Some recs /\
    Forall (fun r => notna (cell r "prompt") = true /\ notna (cell r "lecture") = true)
           recs.
Proof.
  intros Hcsv Hok. rewrite (clean_data_run w df Hcsv) in Hok |- *. cbn zeta in *.
  destruct (dropna _ _) as [e|d] eqn:Hdrop; [done|].
  exists (rows d). split; [done|]. apply Forall_forall. intros r Hr.
  destruct (dropna_rows _ _ _ _ Hdrop Hr) as [_ Hna].
  simpl in Hna. by repeat (apply andb_prop in Hna as [? Hna]).
Qed.

(** ** The ingestion pipeline over the in-memory collection *)

Lemma metadata_of_lookup item :
  metadata_of item !! "subject" = Some (py_str (py_or (item !! "subject") (JStr "General"))) /\
  metadata_of item !! "topic" = Some (py_str (py_or (item !! "topic") (JStr "General"))) /\
  metadata_of item !! "solution" = Some (py_str (py_or (item !! "solution") (JStr ""))).
Proof. unfold metadata_of. by simplify_map_eq. Qed.


Lemma count_unique_id (l : list Entry) x :
  NoDup (stored_ids l) -> x ∈ stored_ids l ->
  length (filter (fun e => e_id e = x) l) = 1.
Proof.
  unfold stored_ids. induction l as [|e l IH]; simpl; intros Hnd Hx.
  - by apply elem_of_nil in Hx.
  - apply NoDup_cons in Hnd as [Hnin Hnd]. rewrite filter_cons.
    destruct (decide (e_id e = x)) as [<-|Hne]; simpl.
    + f_equal. apply length_zero_iff_nil.
      destruct (filter _ l) as [|e' l'] eqn:Hf; [done|].
      assert (e' ∈ filter (fun e0 => e_id e0 = e_id e) l) as He' by (rewrite Hf; left).
      apply list_elem_of_filter in He' as [Heq He'].
      exfalso. apply Hnin. rewrite <- Heq.
      apply list_elem_of_In, in_map. by apply list_elem_of_In.
    + apply IH; [done|]. apply elem_of_cons in Hx as [?|?]; [congruence|done].
Qed.

Section MemIngestion.
Variable dist : string -> string -> nat.
Abbreviation build := (build_knowledge_base (VectorIndex0 := MemIndex dist)).

(** C2 (as amended): [build_knowledge_base] filters nothing.  After a
    run that ends normally, a record of the corpus whose lecture is the
    empty string has a document under its id in the index.  The only
    filter is in the cleaning step: the records that [clean_data]
    writes have a prompt and a lecture that are not missing (NaN). *)
Theorem C2_empty_lecture_is_indexed (w : World (list Entry)) data item :
  json_file w = Some data ->
  item ∈ data ->
  item !! "lecture" = Some (JStr "") ->
  (build w).1 = inr tt ->
  id_of item ∈ index_ids (build w).2 /\
  (forall df, csv_file w = Some df -> (clean_data w).1 = inr tt ->
     exists recs,
       json_file (clean_data w).2 = Some recs /\
       Forall (fun r => notna (cell r "prompt") = true
                        /\ notna (cell r "lecture") = true) recs).
Proof.
  intros Hjson Hitem Hlec Hok.
  destruct (mem_build_contents dist w data Hjson Hok)
    as (c' & Hst & _ & _ & Hent & Hcov).
  split.
  - unfold index_ids. rewrite Hst. by apply Hcov.
  - intros df. apply clean_data_records.
Qed.


(** C7 (as amended): when a run on a corpus ends normally, a second run
    in a row on the same corpus ends normally too and leaves the same
    collection; that collection holds no id twice, holds exactly one
    document for the id of each record of the corpus (eligible or not),
    and nothing else. *)
Theorem C7_second_run_leaves_one_document_per_id (w : World (list Entry)) data :
  json_file w = Some data ->
  (build w).1 = inr tt ->
  (build (build w).2).1 = inr tt /\
  store (build (build w).2).2 = store (build w).2 /\
  exists c',
    store (build (build w).2).2 = Some c' /\
    NoDup (stored_ids c') /\
    (forall item, item ∈ data ->
                  length (filter (fun e => e_id e = id_of item) c') = 1) /\
    (forall e, e ∈ c' -> exists item, item ∈ data /\ e_id e = id_of item).
Proof.
  intros Hjson Hok.
  destruct (mem_build_contents dist w data Hjson Hok)
    as (c' & Hst & Hids & Hnd & Hent & Hcov).
  assert (json_file (build w).2 = Some data) as Hjson'.
  { by rewrite (build_run (VectorIndex0 := MemIndex dist) w data Hjson Hids). }
  pose proof (build_run (VectorIndex0 := MemIndex dist) w data Hjson Hids) as R1.
  pose proof (build_run (VectorIndex0 := MemIndex dist) (build w).2 data Hjson' Hids)
    as R2.
  cbn zeta in R1, R2. rewrite R2. cbn [fst snd store].
  rewrite R1 in Hok, Hst |- *. cbn [fst snd store] in *.
  split; [done|]. split; [done|]. exists c'.
  split; [done|]. split; [done|]. split.
  - intros item Hitem. apply count_unique_id; [done|]. by apply Hcov.
  - intros e He. destruct (Hent e He) as (item & Hitem & ->). by exists item.
Qed.
End MemIngestion.

(** ** The quiz engine *)

Section Sampling.
Context {A : Type}.
Variable rng : nat -> nat.

Lemma draw_length n : forall k (pool : list A),
  n <= length pool -> length (draw rng k n pool) = n.
Proof.
  induction n as [|n IH]; intros k pool Hn; [done|]. simpl.
  assert (rng k mod length pool < length pool) as Hlt.
  { apply Nat.mod_upper_bound. lia. }
  destruct (lookup_lt_is_Some_2 pool _ Hlt) as [x Hx]. rewrite Hx. simpl.
  f_equal. apply IH. rewrite length_delete by eauto. lia.
Qed.

Lemma draw_subset n : forall k (pool : list A) x,
  x ∈ draw rng k n pool -> x ∈ pool.
Proof.
  induction n as [|n IH]; intros k pool x; simpl.
  - intros Hx. by apply elem_of_nil in Hx.
  - destruct (pool !! (rng k mod length pool)) as [y|] eqn:Hy.
    + intros Hx. apply elem_of_cons in Hx as [->|Hx].
      * apply list_elem_of_lookup. eauto.
      * eapply elem_of_sublist; [by apply (IH _ _ _ Hx)|apply sublist_delete].
    + intros Hx. by apply elem_of_nil in Hx.
Qed.
End Sampling.

Lemma select_mask_no_match (f : Item -> bool) (rws : list Item) :
  (forall row, row ∈ rws -> f row = false) ->
  select_mask rws (map f rws) = [].
Proof.
  unfold select_mask. induction rws as [|row rws IH]; intros Hf; [done|].
  simpl. rewrite filter_cons. simpl.
  destruct (decide (f row = true)) as [Ht|_].
  - rewrite Hf in Ht by left. done.
  - apply IH. intros r Hr. apply Hf. by right.
Qed.

Lemma df_nonempty_rows df : df_empty df = false -> 0 < length (rows df).
Proof. unfold df_empty. destruct (rows df); [done|]. simpl. lia. Qed.

(** A column with a string in it has the [.str] accessor. *)
Lemma str_accessor_ok_string (rws : list Item) row s :
  row ∈ rws ->
  row !! "topic" = Some (JStr s) ->
  str_accessor_ok (map (fun row => dict_get row "topic" JNull) rws) = true.
Proof.
  intros Hrow Ht. unfold str_accessor_ok. apply existsb_exists.
  exists (JStr s). split; [|done].
  apply in_map_iff. exists row. split.
  - unfold dict_get. by rewrite Ht.
  - by apply list_elem_of_In.
Qed.

Section QuizFacts.
Variable re_search : string -> option (string -> bool).
Variable rng : nat -> nat.

(** What [generate_quiz] samples from is never empty once the frame is not. *)
Lemma generate_quiz_pool df topic difficulty n :
  df_empty df = false ->
  (exists e, (generate_quiz re_search rng df topic difficulty n).1 = inl e
             /\ (e = KeyError "topic" \/ e = ReError topic
                 \/ e = AttributeError "Can only use .str accessor with string values!")) \/
  (exists pool, 0 < length pool /\ (forall r, r ∈ pool -> r ∈ rows df) /\
     (generate_quiz re_search rng df topic difficulty n).1
     = df_sample rng (Z.min n (Z.of_nat (length pool))) pool).
Proof.
  intros Hne. unfold generate_quiz. rewrite Hne.
  destruct (topic_mask re_search df topic) as [e|mask] eqn:Hmask.
  - left. exists e. split; [done|]. unfold topic_mask in Hmask.
    destruct (bool_decide _); [|injection Hmask as <-; by left].
    destruct (str_accessor_ok _); [|injection Hmask as <-; by right; right].
    destruct (re_search topic); [done|]. injection Hmask as <-. by right; left.
  - right. destruct (select_mask (rows df) mask) as [|r pool] eqn:Hsel.
    + exists (rows df). split; [by apply df_nonempty_rows|]. done.
    + exists (r :: pool). split; [simpl; lia|]. split; [|done].
      intros x Hx. rewrite <- Hsel in Hx. unfold select_mask in Hx.
      apply list_elem_of_In, in_map_iff in Hx as ([y b] & <- & Hy).
      apply list_elem_of_In, list_elem_of_filter in Hy as [_ Hy].
      by apply elem_of_zip_l in Hy.
Qed.

(** C10 (as amended): for a frame that is not empty and has a [topic]
    column with at least one string in it, a topic that matches no
    record and [num_questions >= 1], [generate_quiz] samples from the
    whole frame: it returns [min(num_questions, number of rows)] of its
    rows, which is at least one.  For every frame and topic, an empty
    list comes back only from an empty frame or from
    [num_questions = 0]. *)
Theorem C10_fallback_samples_whole_corpus df topic difficulty n matches :
  df_empty df = false ->
  "topic" ∈ columns df ->
  (exists row s, row ∈ rows df /\ row !! "topic" = Some (JStr s)) ->
  re_search topic = Some matches ->
  (forall row s, row ∈ rows df -> row !! "topic" = Some (JStr s) -> matches s = false) ->
  (1 <= n)%Z ->
  (exists quiz,
     (generate_quiz re_search rng df topic difficulty n).1 = inr quiz /\
     quiz <> [] /\
     Z.of_nat (length quiz) = Z.min n (Z.of_nat (length (rows df))) /\
     (forall r, r ∈ quiz -> r ∈ rows df)) /\
  (forall df' topic' n',
     (generate_quiz re_search rng df' topic' difficulty n').1 = inr [] ->
     df_empty df' = true \/ n' = 0%Z).
Proof.
  intros Hne Hcol (row0 & s0 & Hrow0 & Hs0) Hre Hno Hn. split.
  - pose proof (df_nonempty_rows df Hne) as Hlen.
    unfold generate_quiz, topic_mask. rewrite Hne, Hre.
    rewrite bool_decide_eq_true_2 by done.
    rewrite (str_accessor_ok_string (rows df) row0 s0 Hrow0 Hs0).
    rewrite select_mask_no_match.
    2: { intros row Hrow. destruct (row !! "topic") as [[| | |s|]|] eqn:Ht; try done.
         by apply (Hno row s). }
    cbn [fst]. unfold df_sample.
    destruct (Z.ltb_spec (Z.min n (Z.of_nat (length (rows df)))) 0); [lia|].
    destruct (Z.ltb_spec (Z.of_nat (length (rows df)))
                         (Z.min n (Z.of_nat (length (rows df))))); [lia|].
    eexists. split; [done|].
    assert (length (draw rng 0 (Z.to_nat (Z.min n (Z.of_nat (length (rows df)))))
                     (rows df))
            = Z.to_nat (Z.min n (Z.of_nat (length (rows df))))) as Hdraw.
    { apply draw_length. lia. }
    split; [|split].
    + intros Hnil. rewrite Hnil in Hdraw. simpl in Hdraw. lia.
    + rewrite Hdraw. lia.
    + intros r. apply draw_subset.
  - intros df' topic' n' Hempty.
    destruct (df_empty df') eqn:Hne'; [by left|right].
    destruct (generate_quiz_pool df' topic' difficulty n' Hne')
      as [(e & He & _)|(pool & Hlen & _ & Hq)]; [congruence|].
    rewrite Hq in Hempty. unfold df_sample in Hempty.
    destruct (Z.ltb_spec (Z.min n' (Z.of_nat (length pool))) 0); [done|].
    destruct (Z.ltb_spec (Z.of_nat (length pool))
                         (Z.min n' (Z.of_nat (length pool)))); [done|].
    injection Hempty as Hempty.
    apply (f_equal length) in Hempty. rewrite draw_length in Hempty by lia.
    simpl in Hempty. lia.
Qed.
End QuizFacts.

(** ** Concrete runs *)

Module Runs.
Import Examples.

Abbreviation build := (build_knowledge_base (VectorIndex0 := index)).

Lemma corpus_has_ids n : Forall has_id (corpus n).
Proof.
  unfold corpus. apply Forall_forall. intros item Hitem.
  apply list_elem_of_In, in_map_iff in Hitem as (k & <- & _).
  by exists (JInt (Z.of_nat k)).
Qed.

(** Scenario B of the specification: the record with the empty lecture
    is in the index after the run. *)
Lemma C2_counterexample_empty_lecture_in_index :
  empty_lecture !! "lecture" = Some (JStr "") /\
  (build (world_of [empty_lecture])).1 = inr tt /\
  store (build (world_of [empty_lecture])).2
  = Some [mkEntry "1" "Question: P1 Context: " (metadata_of empty_lecture)].
Proof. vm_compute. done. Qed.

Lemma C2_witness :
  id_of empty_lecture
    ∈ index_ids (build (mkWorld (Some raw_frame) (Some [empty_lecture]) None [])).2.
Proof.
  refine (proj1 (C2_empty_lecture_is_indexed len_dist
                   (mkWorld (Some raw_frame) (Some [empty_lecture]) None [])
                   [empty_lecture] empty_lecture _ _ _ _)).
  - reflexivity.
  - left.
  - reflexivity.
  - vm_compute. reflexivity.
Defined.

(** A record without an id ends the run; the record after it is not indexed. *)
Lemma C3_counterexample_run_aborts :
  build (world_of [no_id; newton])
  = (inl (KeyError "id"),
     mkWorld None (Some [no_id; newton]) (Some [])
       ["Building Vector Database..."; "Processing 2 items..."]).
Proof. vm_compute. reflexivity. Qed.

Lemma C3_witness :
  (build (world_of [no_id; newton])).1 = inl (KeyError "id").
Proof.
  refine (f_equal fst
            (proj1 (C3_record_without_id_aborts_run (VectorIndex0 := index)
                      (world_of [no_id; newton]) [no_id; newton] _) _)).
  - reflexivity.
  - left. reflexivity.
Defined.

(** The second of three batches holds a duplicate id: the run ends with
    the exception of that batch, and the third batch is not added. *)
Lemma C4_counterexample_later_batch_not_added :
  (build (world_of corpus_dup)).1 = inl (DuplicateIDError ["500"]) /\
  stdout (build (world_of corpus_dup)).2
  = ["Building Vector Database..."; "Processing 1001 items...";
     "   Added batch 1/3..."] /\
  length (index_ids (build (world_of corpus_dup)).2) = 500 /\
  bool_decide ("1000" ∈ map id_of corpus_dup) = true /\
  bool_decide ("1000" ∈ index_ids (build (world_of corpus_dup)).2) = false.
Proof. vm_compute. done. Qed.

Lemma corpus_dup_has_ids : Forall has_id corpus_dup.
Proof.
  unfold corpus_dup. apply Forall_forall. intros item Hitem.
  apply list_elem_of_In, in_map_iff in Hitem as (k & <- & _).
  destruct (k =? 501)%nat; by eexists.
Qed.

Lemma pair_with_snd {A B} (p : A * B) (b : B) : p.2 = b -> p = (p.1, b).
Proof. destruct p. simpl. by intros ->. Qed.

Lemma C4_witness :
  build (world_of corpus_dup) =
    (inl (DuplicateIDError ["500"]),
     mkWorld (csv_file (world_of corpus_dup)) (Some corpus_dup)
       (Some after_second_batch)
       (stdout (world_of corpus_dup)
          ++ ["Building Vector Database...";
              "Processing " +:+ pretty (length corpus_dup) +:+ " items..."]
          ++ map (batch_line (length corpus_dup / batch_size + 1)) [0])).
Proof.
  refine (C4_failed_batch_aborts_run (VectorIndex0 := index)
            (world_of corpus_dup) corpus_dup [0] 500 [1000]
            after_first_batch after_second_batch
            (DuplicateIDError ["500"]) _ _ _ _ _).
  - reflexivity.
  - apply corpus_dup_has_ids.
  - vm_compute. reflexivity.
  - apply pair_with_snd. vm_compute. reflexivity.
  - apply pair_with_snd. vm_compute. reflexivity.
Defined.


(** Two runs in a row on a corpus whose first record has no id: both
    abort with a [KeyError] and leave an empty collection, without a
    document for the eligible record that follows.  And two runs on a
    corpus with an ineligible record leave a document for it. *)
Lemma C7_counterexample_no_document_for_eligible_id :
  (eligible newton = true /\
   (build (world_of [no_id; newton])).1 = inl (KeyError "id") /\
   (build (build (world_of [no_id; newton])).2).1 = inl (KeyError "id") /\
   store (build (build (world_of [no_id; newton])).2).2 = Some [] /\
   id_of newton ∉ index_ids (build (build (world_of [no_id; newton])).2).2) /\
  (eligible empty_lecture = false /\
   (build (build (world_of [empty_lecture; newton])).2).1 = inr tt /\
   index_ids (build (build (world_of [empty_lecture; newton])).2).2 = ["1"; "2"]).
Proof.
  split.
  - split; [vm_compute; done|]. split; [vm_compute; done|].
    split; [vm_compute; done|]. split; [vm_compute; done|].
    replace (index_ids (build (build (world_of [no_id; newton])).2).2)
      with (@nil string) by (vm_compute; reflexivity).
    apply not_elem_of_nil.
  - vm_compute. done.
Qed.

Lemma C7_witness :
  (build (build (world_of [mitosis; newton])).2).1 = inr tt /\
  store (build (build (world_of [mitosis; newton])).2).2
  = store (build (world_of [mitosis; newton])).2.
Proof.
  destruct (C7_second_run_leaves_one_document_per_id len_dist
              (world_of [mitosis; newton]) [mitosis; newton])
    as (Hok & Hsame & _).
  - reflexivity.
  - vm_compute. reflexivity.
  - split; [exact Hok|exact Hsame].
Defined.

(** The batches of the run hold the document of the record with the
    empty lecture, which the specification does not count as eligible. *)
Lemma C8_counterexample_ineligible_record_in_batches :
  (concat_batches (batches (columns_of [empty_lecture; newton]))).1.1 = ["1"; "2"] /\
  index_ids (build (world_of [empty_lecture; newton])).2 = ["1"; "2"] /\
  map id_of (List.filter eligible [empty_lecture; newton]) = ["2"].
Proof. vm_compute. done. Qed.

Lemma C8_witness :
  concat_batches (batches (columns_of (corpus 1001))) = columns_of (corpus 1001) /\
  length (batches (columns_of (corpus 1001))) = 3.
Proof.
  split.
  - refine (proj1 (C8_batches_partition_all_records (VectorIndex0 := index)
                     (world_of (corpus 1001)) (corpus 1001) _ _)).
    + reflexivity.
    + apply corpus_has_ids.
  - vm_compute. reflexivity.
Defined.

(** On a frame that is not empty and whose [topic] column holds numbers
    only, no record's topic matches, and the call of the handler
    ([num_questions = 5]) ends with an [AttributeError], not with a
    sample of the frame.  And with [num_questions = 0] the list is empty
    although the frame is not and the topic matches no record. *)
Lemma C10_counterexample_no_fallback :
  (df_empty numeric_topics = false /\
   Forall (fun row => forall s, row !! "topic" <> Some (JStr s)) (rows numeric_topics) /\
   (get_quiz contains_nocase first_row numeric_topics "Biology" "Medium").1
   = inl (AttributeError "Can only use .str accessor with string values!")) /\
  (df_empty quiz_frame = false /\
   topic_mask contains_nocase quiz_frame "zzz" = inr [false; false] /\
   (generate_quiz contains_nocase first_row quiz_frame "zzz" "Medium" 0).1 = inr []).
Proof.
  split; [|vm_compute; done].
  split; [done|]. split; [|vm_compute; done].
  repeat constructor; intros s; vm_compute; discriminate.
Qed.

Lemma C10_witness :
  exists quiz,
    (generate_quiz contains_nocase first_row quiz_frame "Chemistry" "Medium" 5).1
    = inr quiz /\ quiz <> [].
Proof.
  destruct (proj1 (C10_fallback_samples_whole_corpus contains_nocase first_row
                     quiz_frame "Chemistry" "Medium" 5
                     (fun s => is_substring (lower "Chemistry") (lower s))
                     eq_refl
                     ltac:(repeat constructor)
                     ltac:(exists mitosis, "Biology";
                           split; [left|reflexivity])
                     eq_refl
                     ltac:(intros row s Hrow;
                           repeat (apply elem_of_cons in Hrow as [->|Hrow]);
                           [intros [= <-]; reflexivity
                           |intros [= <-]; reflexivity
                           |by apply elem_of_nil in Hrow])
                     ltac:(lia)))
    as (quiz & Hq & Hne & _).
  exists quiz. split; [exact Hq|exact Hne].
Defined.

End Runs.

(** * Further properties *)

(** ** The cleaning step, row by row *)

Lemma lookup_tabulate (f : string -> JVal) (cols : list string) (c : string) :
  (list_to_map (map (fun c => (c, f c)) cols) : Item) !! c
  = if decide (c ∈ cols) then Some (f c) else None.
Proof.
  induction cols as [|k cols IH]; simpl.
  - rewrite lookup_empty. by destruct (decide (c ∈ [])) as [H%elem_of_nil|].
  - destruct (decide (k = c)) as [->|Hne].
    + rewrite lookup_insert_eq. destruct (decide (c ∈ c :: cols)) as [|Hn]; [done|].
      exfalso. apply Hn. left.
    + rewrite lookup_insert_ne by done. rewrite IH.
      destruct (decide (c ∈ cols)) as [Hin|Hnin];
        destruct (decide (c ∈ k :: cols)) as [Hin'|Hnin']; try done.
      * exfalso. apply Hnin'. by right.
      * apply elem_of_cons in Hin' as [->|?]; done.
Qed.

Lemma elem_of_existing_cols df c :
  c ∈ existing_cols df <-> c ∈ wanted_cols /\ (c ∈ columns df \/ c = "choices").
Proof.
  unfold existing_cols. rewrite list_elem_of_filter. unfold assign_choices. simpl.
  destruct (bool_decide ("choices" ∈ columns df)) eqn:Hch.
  - apply bool_decide_eq_true in Hch. split.
    + intros [? ?]. split; [done|by left].
    + intros [? [?| ->]]; done.
  - split.
    + intros [Hc ?]. split; [done|]. apply elem_of_app in Hc as [?|Hc]; [by left|].
      right. by apply list_elem_of_singleton in Hc.
    + intros [? [?| ->]]; (split; [|done]); apply elem_of_app; [by left|right].
      by apply list_elem_of_singleton.
Qed.

Lemma clean_row_lookup df row c :
  clean_row df row !! c
  = if decide (c ∈ existing_cols df)
    then Some (cell (<["choices" := format_choices (columns df) row]> row) c)
    else None.
Proof. unfold clean_row. apply lookup_tabulate. Qed.

Lemma cell_clean_row df row c :
  c ∈ columns df -> c ∈ wanted_cols -> c <> "choices" ->
  cell (clean_row df row) c = cell row c.
Proof.
  intros Hc Hw Hne. unfold cell at 1, dict_get. rewrite clean_row_lookup.
  rewrite decide_True by (apply elem_of_existing_cols; auto).
  unfold cell, dict_get. by rewrite lookup_insert_ne.
Qed.

Lemma select_assign_rows df :
  rows (select (assign_choices df) (existing_cols df)) = map (clean_row df) (rows df).
Proof. unfold select, assign_choices. simpl. by rewrite map_map. Qed.

Lemma filter_map_commute {A B} (f : A -> B) (P : B -> Prop) `{forall b, Decision (P b)}
    (l : list A) :
  filter P (map f l) = map f (filter (fun a => P (f a)) l).
Proof.
  induction l as [|a l IH]; [done|]. simpl. rewrite !filter_cons.
  destruct (decide (P (f a))); simpl; by rewrite IH.
Qed.

Lemma wanted_prompt : "prompt" ∈ wanted_cols.
Proof. by apply (bool_decide_unpack _). Qed.

Lemma wanted_lecture : "lecture" ∈ wanted_cols.
Proof. by apply (bool_decide_unpack _). Qed.

Lemma wanted_choices : "choices" ∈ wanted_cols.
Proof. by apply (bool_decide_unpack _). Qed.

Lemma options_not_wanted opt :
  opt ∈ ["A"; "B"; "C"; "D"; "E"] -> opt ∉ wanted_cols.
Proof.
  intros Hopt Hw. apply (bool_decide_eq_true_2 _) in Hw.
  repeat (apply elem_of_cons in Hopt as [->|Hopt]); try discriminate.
  by apply elem_of_nil in Hopt.
Qed.

Lemma dropna_clean_rows df :
  "prompt" ∈ columns df -> "lecture" ∈ columns df ->
  dropna ["prompt"; "lecture"] (select (assign_choices df) (existing_cols df))
  = inr {| columns := existing_cols df;
           rows := map (clean_row df) (filter (fun row => present row = true) (rows df)) |}.
Proof.
  intros Hp Hl. unfold dropna.
  assert (filter (fun c => c ∉ columns (select (assign_choices df) (existing_cols df)))
                 ["prompt"; "lecture"] = []) as ->.
  { simpl. rewrite !filter_cons, filter_nil.
    rewrite !decide_False; [done| |].
    - intros Hn. apply Hn, elem_of_existing_cols. split; [apply wanted_lecture|by left].
    - intros Hn. apply Hn, elem_of_existing_cols. split; [apply wanted_prompt|by left]. }
  f_equal. rewrite select_assign_rows. simpl columns. f_equal.
  rewrite filter_map_commute. f_equal.
  apply list_filter_iff. intros row. simpl.
  rewrite !cell_clean_row; try done; [|apply wanted_lecture|apply wanted_prompt].
  unfold present. by rewrite andb_true_r.
Qed.

Lemma fold_choices (p : string -> bool) (f : string -> JVal) (opts : list string) :
  forall acc : list (string * JVal),
    fold_left (fun choices opt => if p opt then choices ++ [(opt, f opt)] else choices)
              opts acc
    = acc ++ map (fun opt => (opt, f opt)) (filter (fun opt => p opt = true) opts).
Proof.
  induction opts as [|o opts IH]; intros acc; simpl.
  - by rewrite app_nil_r.
  - rewrite IH, filter_cons. destruct (p o) eqn:Hp.
    + rewrite decide_True by done. simpl. by rewrite <- app_assoc.
    + rewrite decide_False by done. done.
Qed.

Section Cleaning.
Context {C : Type}.

Lemma clean_data_run_present (w : World C) df :
  csv_file w = Some df ->
  "prompt" ∈ columns df ->
  "lecture" ∈ columns df ->
  clean_data w =
    (inr tt,
     mkWorld (csv_file w)
       (Some (map (clean_row df) (filter (fun row => present row = true) (rows df))))
       (store w)
       (stdout w ++
        ["Starting data cleaning...";
         "Success! Saved "
           +:+ pretty (length (filter (fun row => present row = true) (rows df)))
           +:+ " questions to data/cleaned_exam.json"])).
Proof.
  intros Hcsv Hp Hl. rewrite (clean_data_run w df Hcsv). cbn zeta.
  change (filter (fun c => c ∈ columns (assign_choices df)) wanted_cols)
    with (existing_cols df).
  rewrite (dropna_clean_rows df Hp Hl). cbn [rows]. by rewrite length_map.
Qed.

Lemma clean_data_run_missing (w : World C) df :
  csv_file w = Some df ->
  ~ ("prompt" ∈ columns df /\ "lecture" ∈ columns df) ->
  exists k,
    (k = "prompt" \/ k = "lecture") /\ (k ∉ columns df) /\
    clean_data w =
      (inl (KeyError k),
       mkWorld (csv_file w) (json_file w) (store w)
               (stdout w ++ ["Starting data cleaning..."])).
Proof.
  intros Hcsv Hmiss. rewrite (clean_data_run w df Hcsv). cbn zeta.
  change (filter (fun c => c ∈ columns (assign_choices df)) wanted_cols)
    with (existing_cols df).
  unfold dropna. cbn [columns select]. rewrite !filter_cons, filter_nil.
  destruct (decide ("prompt" ∉ existing_cols df)) as [Hp|Hp].
  - exists "prompt". split; [by left|]. split; [|done].
    intros Hin. apply Hp, elem_of_existing_cols. split; [apply wanted_prompt|by left].
  - destruct (decide ("lecture" ∉ existing_cols df)) as [Hl|Hl].
    + exists "lecture". split; [by right|]. split; [|done].
      intros Hin. apply Hl, elem_of_existing_cols. split; [apply wanted_lecture|by left].
    + exfalso. apply Hmiss.
      apply dec_stable in Hp, Hl.
      apply elem_of_existing_cols in Hp as [_ [Hp|Hp]]; [|done].
      apply elem_of_existing_cols in Hl as [_ [Hl|Hl]]; [|done].
      done.
Qed.

(** X1: on a frame that has the columns [prompt] and [lecture],
    [clean_data] ends normally and writes one record for each row whose
    prompt and lecture are both present, in the order of the rows, and
    reports their number; a written record has the cell of its row under
    every wanted column of the frame. *)
Theorem clean_data_keeps_present_rows (w : World C) df :
  csv_file w = Some df ->
  "prompt" ∈ columns df ->
  "lecture" ∈ columns df ->
  clean_data w =
    (inr tt,
     mkWorld (csv_file w)
       (Some (map (clean_row df) (filter (fun row => present row = true) (rows df))))
       (store w)
       (stdout w ++
        ["Starting data cleaning...";
         "Success! Saved "
           +:+ pretty (length (filter (fun row => present row = true) (rows df)))
           +:+ " questions to data/cleaned_exam.json"])) /\
  (forall row c, c ∈ columns df -> c ∈ wanted_cols -> c <> "choices" ->
                 clean_row df row !! c = Some (cell row c)).
Proof.
  intros Hcsv Hp Hl. split; [by apply clean_data_run_present|].
  intros row c Hc Hw Hne. rewrite clean_row_lookup.
  rewrite decide_True by (apply elem_of_existing_cols; auto).
  unfold cell, dict_get. by rewrite lookup_insert_ne.
Qed.

(** X2: on a frame that lacks the column [prompt] or the column
    [lecture], [clean_data] ends with a [KeyError] for a missing one,
    after its first console line, and writes no output file. *)
Theorem clean_data_missing_column (w : World C) df :
  csv_file w = Some df ->
  ~ ("prompt" ∈ columns df /\ "lecture" ∈ columns df) ->
  exists k,
    (k = "prompt" \/ k = "lecture") /\ (k ∉ columns df) /\
    clean_data w =
      (inl (KeyError k),
       mkWorld (csv_file w) (json_file w) (store w)
               (stdout w ++ ["Starting data cleaning..."])).
Proof. apply clean_data_run_missing. Qed.

(** X4: every record that [clean_data] writes has exactly the wanted
    columns that the frame has, together with [choices], which is bound
    to a dict: no other column of the frame (the option columns [A] to
    [E] among them) reaches the output. *)
Theorem clean_data_record_keys (w : World C) df recs r :
  csv_file w = Some df ->
  (clean_data w).1 = inr tt ->
  json_file (clean_data w).2 = Some recs ->
  r ∈ recs ->
  (forall c, is_Some (r !! c)
             <-> c ∈ wanted_cols /\ (c ∈ columns df \/ c = "choices")) /\
  (exists fields, r !! "choices" = Some (JDict fields)) /\
  (forall opt, opt ∈ ["A"; "B"; "C"; "D"; "E"] -> r !! opt = None).
Proof.
  intros Hcsv Hok Hjson Hr.
  destruct (decide ("prompt" ∈ columns df /\ "lecture" ∈ columns df)) as [[Hp Hl]|Hmiss].
  2: { destruct (clean_data_run_missing w df Hcsv Hmiss) as (k & _ & _ & Hrun).
       by rewrite Hrun in Hok. }
  pose proof (clean_data_run_present w df Hcsv Hp Hl) as Hrun.
  rewrite Hrun in Hjson. cbn [snd json_file] in Hjson. injection Hjson as <-.
  apply list_elem_of_In, in_map_iff in Hr as (row & <- & _).
  assert (forall c, is_Some (clean_row df row !! c) <-> c ∈ existing_cols df) as Hkeys.
  { intros c. rewrite clean_row_lookup. destruct (decide (c ∈ existing_cols df)).
    - split; [done|eauto].
    - split; [by intros [? ?]|done]. }
  split; [|split].
  - intros c. by rewrite Hkeys, elem_of_existing_cols.
  - rewrite clean_row_lookup.
    rewrite decide_True
      by (apply elem_of_existing_cols; split; [apply wanted_choices|by right]).
    unfold cell, dict_get. rewrite lookup_insert_eq. unfold format_choices. eauto.
  - intros opt Hopt. rewrite clean_row_lookup. rewrite decide_False; [done|].
    intros [Hw _]%elem_of_existing_cols. by apply (options_not_wanted opt).
Qed.

(** X3: the [choices] of a row list the options among [A] to [E] that
    are columns of the frame and whose cell is present, in that order,
    each with its cell. *)
Theorem format_choices_lists_present_options (cols : list string) (row : Item) :
  format_choices cols row
  = JDict (map (fun opt => (opt, cell row opt))
               (filter (fun opt => opt ∈ cols /\ notna (cell row opt) = true)
                       ["A"; "B"; "C"; "D"; "E"])).
Proof.
  unfold format_choices. f_equal.
  rewrite (fold_choices (fun opt => bool_decide (opt ∈ cols) && notna (cell row opt))
                        (cell row)).
  simpl app. f_equal. apply list_filter_iff. intros opt.
  by rewrite andb_true_iff, bool_decide_eq_true.
Qed.
End Cleaning.

(** ** More on a run of [build_knowledge_base] *)

Lemma length_py_range n b : length (py_range n b) = (n + b - 1) / b.
Proof. unfold py_range. by rewrite length_map, length_seq. Qed.

Lemma batch_count n :
  (n + batch_size - 1) / batch_size
  = if (n mod batch_size =? 0)%nat then n / batch_size else n / batch_size + 1.
Proof.
  pose proof batch_size_pos as Hb.
  pose proof (Nat.div_mod_eq n batch_size) as Hn.
  pose proof (Nat.mod_upper_bound n batch_size) as Hr.
  destruct (Nat.eqb_spec (n mod batch_size) 0) as [H0|H0].
  - symmetry. apply (Nat.div_unique _ _ _ (batch_size - 1)); lia.
  - symmetry. apply (Nat.div_unique _ _ _ (n mod batch_size - 1)); lia.
Qed.

Section BuildMore.
Context {C : Type} `{!VectorIndex C}.

Lemma build_no_file (w : World C) :
  json_file w = None ->
  build_knowledge_base w =
    (inr tt,
     mkWorld (csv_file w) None (store w)
       (stdout w ++ ["Building Vector Database...";
                     "Error: data/cleaned_exam.json not found. Did you run script 1?"])).
Proof.
  intros Hjson. destruct w as [csv json st out]. simpl in Hjson. subst json.
  unfold build_knowledge_base, print, get_world, bind.
  cbn [csv_file json_file store stdout]. by rewrite <- app_assoc.
Qed.

(** X5: what a run leaves in the collection, and how it ends, depends on
    the data file alone: whatever the collection held before the run, or
    whether it existed, no earlier document survives it. *)
Theorem build_forgets_earlier_collection (w1 w2 : World C) data :
  json_file w1 = Some data ->
  json_file w2 = Some data ->
  (build_knowledge_base w1).1 = (build_knowledge_base w2).1 /\
  store (build_knowledge_base w1).2 = store (build_knowledge_base w2).2 /\
  is_Some (store (build_knowledge_base w1).2).
Proof.
  intros H1 H2. destruct (ids_present_or_missing data) as [Hids|Hmiss].
  - rewrite (build_run w1 data H1 Hids), (build_run w2 data H2 Hids). cbn.
    split; [done|]. split; [done|]. eauto.
  - rewrite (build_missing_id w1 data H1 Hmiss), (build_missing_id w2 data H2 Hmiss).
    cbn. split; [done|]. split; [done|]. eauto.
Qed.

(** X6: a run never changes the CSV file or the JSON file; and when the
    JSON file does not exist it ends normally after printing the error
    line, without deleting or recreating the collection. *)
Theorem build_leaves_files_alone (w : World C) :
  csv_file (build_knowledge_base w).2 = csv_file w /\
  json_file (build_knowledge_base w).2 = json_file w /\
  (json_file w = None ->
   (build_knowledge_base w).1 = inr tt /\
   store (build_knowledge_base w).2 = store w /\
   stdout (build_knowledge_base w).2
   = stdout w ++ ["Building Vector Database...";
                  "Error: data/cleaned_exam.json not found. Did you run script 1?"]).
Proof.
  destruct (json_file w) as [data|] eqn:Hjson.
  - split; [|split; [|done]].
    + destruct (ids_present_or_missing data) as [Hids|Hmiss].
      * by rewrite (build_run w data Hjson Hids).
      * by rewrite (build_missing_id w data Hjson Hmiss).
    + destruct (ids_present_or_missing data) as [Hids|Hmiss].
      * by rewrite (build_run w data Hjson Hids).
      * by rewrite (build_missing_id w data Hjson Hmiss).
  - rewrite (build_no_file w Hjson). cbn. done.
Qed.

(** X7: in a run that ends normally the console shows one line per
    batch, numbered against the total [len(ids) // 500 + 1]; the number
    of batches is that total only when the number of records is not a
    multiple of 500, and one less when it is (for 500 records the only
    line reads "Added batch 1/2"). *)
Theorem progress_total_counts_one_batch_too_many (w : World C) data :
  json_file w = Some data ->
  (build_knowledge_base w).1 = inr tt ->
  stdout (build_knowledge_base w).2
  = stdout w
    ++ ["Building Vector Database...";
        "Processing " +:+ pretty (length data) +:+ " items..."]
    ++ map (batch_line (length data / 500 + 1)) (py_range (length data) 500)
    ++ ["Database built successfully in /vector_store!"] /\
  length (py_range (length data) 500)
  = if (length data mod 500 =? 0)%nat then length data / 500
    else length data / 500 + 1.
Proof.
  intros Hjson Hok. split; [|by rewrite length_py_range; apply batch_count].
  destruct (ids_present_or_missing data) as [Hids|Hmiss].
  2: { by rewrite (build_missing_id w data Hjson Hmiss) in Hok. }
  rewrite (build_run w data Hjson Hids) in Hok |- *. cbn zeta in *.
  destruct (add_all vi_create (batches (columns_of data))) as [[c' err] n] eqn:Hall.
  cbn [fst snd stdout] in *. destruct err as [e|]; [done|].
  apply add_all_count in Hall. subst n.
  unfold run_lines. cbn [fst snd]. unfold batches. cbn [columns_of fst].
  rewrite !length_map. by rewrite firstn_all.
Qed.
End BuildMore.

(** ** More on the in-memory collection *)

Lemma dup_ids_NoDup seen ids :
  NoDup ids -> (forall x, x ∈ ids -> x ∉ seen) -> dup_ids seen ids = [].
Proof.
  revert seen. induction ids as [|x ids IH]; intros seen Hnd Hfresh; [done|]. simpl.
  apply NoDup_cons in Hnd as [Hx Hnd].
  rewrite bool_decide_eq_false_2 by (apply Hfresh; left).
  apply IH; [done|]. intros y Hy Hin.
  apply elem_of_cons in Hin as [->|Hin]; [done|].
  apply (Hfresh y); [by right|done].
Qed.

Lemma mem_add_succeeds c ids docs metas :
  ids <> [] -> length docs = length ids -> length metas = length ids ->
  NoDup ids ->
  mem_add c ids docs metas
  = (c ++ filter (fun e => e_id e ∉ stored_ids c) (zip_entries ids docs metas), None).
Proof.
  intros Hne Hd Hm Hnd. unfold mem_add. destruct ids as [|i ids]; [done|].
  rewrite !bool_decide_eq_true_2 by done. cbn [negb orb].
  rewrite dup_ids_NoDup; [done|done|].
  intros x _ Hx. by apply elem_of_nil in Hx.
Qed.

Lemma mem_add_fails_on_duplicates c ids docs metas :
  ~ NoDup ids -> exists e, (mem_add c ids docs metas).2 = Some e.
Proof.
  intros Hdup. destruct (mem_add c ids docs metas) as [c' [e|]] eqn:Hadd; [eauto|].
  apply mem_add_ok in Hadd as [Hnd _]. done.
Qed.

Lemma filter_all {A} (P : A -> Prop) `{forall x, Decision (P x)} (l : list A) :
  (forall x, x ∈ l -> P x) -> filter P l = l.
Proof.
  induction l as [|x l IH]; intros Hall; [done|].
  rewrite filter_cons, decide_True by (apply Hall; left).
  f_equal. apply IH. intros y Hy. apply Hall. by right.
Qed.

Lemma zip_entries_take ids : forall n docs metas,
  zip_entries (take n ids) (take n docs) (take n metas)
  = take n (zip_entries ids docs metas).
Proof.
  induction ids as [|i ids IH]; intros [|n] [|d docs] [|m metas]; simpl; try done.
  by rewrite IH.
Qed.

Lemma zip_entries_drop ids : forall n docs metas,
  length docs = length ids -> length metas = length ids ->
  zip_entries (drop n ids) (drop n docs) (drop n metas)
  = drop n (zip_entries ids docs metas).
Proof.
  induction ids as [|i ids IH]; intros [|n] [|d docs] [|m metas]; simpl; try done.
  intros Hd Hm. apply IH; lia.
Qed.

Lemma zip_entries_columns data :
  zip_entries (map id_of data) (map combined_text data) (map metadata_of data)
  = map entry_of data.
Proof. induction data as [|item data IH]; [done|]. simpl. by rewrite IH. Qed.

Lemma batch_entries data i :
  zip_entries (batch_at (columns_of data) i).1.1 (batch_at (columns_of data) i).1.2
              (batch_at (columns_of data) i).2
  = slice (map entry_of data) i (i + batch_size).
Proof.
  simpl. rewrite !slice_step, zip_entries_take, zip_entries_drop, zip_entries_columns;
    [done|by rewrite !length_map..].
Qed.

Lemma concat_batch_entries data :
  concat (map (fun b : Columns => zip_entries b.1.1 b.1.2 b.2) (batches (columns_of data)))
  = map entry_of data.
Proof.
  unfold batches. rewrite map_map.
  erewrite map_ext; [|intros i; apply batch_entries].
  cbn [columns_of fst]. rewrite length_map, <- (length_map entry_of data).
  apply concat_range_slices, batch_size_pos.
Qed.

Section MemMore.
Variable dist : string -> string -> nat.
Abbreviation build := (build_knowledge_base (VectorIndex0 := MemIndex dist)).

Lemma mem_add_all_ok_iff bs :
  Forall (fun b : Columns =>
            0 < length b.1.1 <= batch_size /\
            length b.1.2 = length b.1.1 /\ length b.2 = length b.1.1) bs ->
  forall c,
    (add_all (VectorIndex0 := MemIndex dist) c bs).1.2 = None
    <-> Forall (fun b : Columns => NoDup b.1.1) bs.
Proof.
  induction 1 as [|b bs (Hlen & Hd & Hm) _ IH]; intros c; simpl.
  - split; [constructor|done].
  - destruct (decide (NoDup b.1.1)) as [Hnd|Hdup].
    + rewrite mem_add_succeeds; [|by destruct b.1.1; simpl in *; [lia|]|done..].
      destruct (add_all _ bs) as [[c'' err] n] eqn:Hrest. cbn [fst snd].
      specialize (IH (c ++ filter (fun e => e_id e ∉ stored_ids c)
                                  (zip_entries b.1.1 b.1.2 b.2))).
      rewrite Hrest in IH. cbn [fst snd] in IH. rewrite IH.
      split; [by constructor|by intros [_ ?]%Forall_cons].
    + destruct (mem_add_fails_on_duplicates c b.1.1 b.1.2 b.2 Hdup) as [e He].
      destruct (mem_add c b.1.1 b.1.2 b.2) as [c' [e'|]]; [|done]. cbn [fst snd].
      split; [done|by intros [? _]%Forall_cons].
Qed.

Lemma mem_add_all_fresh bs :
  Forall (fun b : Columns =>
            0 < length b.1.1 <= batch_size /\
            length b.1.2 = length b.1.1 /\ length b.2 = length b.1.1) bs ->
  forall c,
    NoDup (stored_ids c ++ concat (map (fun b : Columns => b.1.1) bs)) ->
    add_all (VectorIndex0 := MemIndex dist) c bs
    = (c ++ concat (map (fun b : Columns => zip_entries b.1.1 b.1.2 b.2) bs),
       None, length bs).
Proof.
  induction 1 as [|b bs (Hlen & Hd & Hm) _ IH]; intros c Hnd; simpl.
  - by rewrite app_nil_r.
  - simpl in Hnd. rewrite app_assoc in Hnd.
    pose proof Hnd as Hnd'. apply NoDup_app in Hnd' as (Hcb & _ & _).
    pose proof Hcb as Hcb'. apply NoDup_app in Hcb' as (_ & Hfresh & Hb).
    rewrite mem_add_succeeds; [|by destruct b.1.1; simpl in *; [lia|]|done..].
    rewrite filter_all.
    2: { intros e He Hin. apply (Hfresh (e_id e) Hin).
         rewrite <- (zip_entries_ids b.1.1 b.1.2 b.2 Hd Hm).
         apply list_elem_of_In, in_map. by apply list_elem_of_In. }
    rewrite IH.
    + by rewrite <- app_assoc.
    + unfold stored_ids. rewrite map_app.
      fold (stored_ids (zip_entries b.1.1 b.1.2 b.2)).
      by rewrite zip_entries_ids.
Qed.

(** X8: over the in-memory collection a run ends normally exactly when
    every record has an id and no batch of 500 holds the same id twice. *)
Theorem build_ends_normally_iff (w : World (list Entry)) data :
  json_file w = Some data ->
  (build w).1 = inr tt
  <-> Forall has_id data /\
      Forall (fun b : Columns => NoDup b.1.1) (batches (columns_of data)).
Proof.
  intros Hjson. destruct (ids_present_or_missing data) as [Hids|Hmiss].
  - rewrite (build_run (VectorIndex0 := MemIndex dist) w data Hjson Hids). cbn zeta.
    cbn [fst]. rewrite <- (mem_add_all_ok_iff _ (batches_sizes data) []).
    change (@vi_create _ (MemIndex dist)) with (@nil Entry).
    destruct (add_all _ _) as [[c' [e|]] n]; cbn [fst snd outcome_of];
      (split; [intros Heq|intros [_ Heq]]); try discriminate Heq; done.
  - rewrite (build_missing_id w data Hjson Hmiss). cbn [fst].
    split; [done|]. intros [Hids _]. exfalso.
    apply Exists_exists in Hmiss as (item & Hitem & Hnone).
    rewrite Forall_forall in Hids. destruct (Hids item Hitem) as [v Hv]. congruence.
Qed.

(** X9: when every record has an id and the ids print pairwise
    differently, a run over the in-memory collection ends normally and
    leaves exactly the documents of the records, one per record, in the
    order of the corpus, with the line of every batch on the console. *)
Theorem build_stores_corpus_in_order (w : World (list Entry)) data :
  json_file w = Some data ->
  Forall has_id data ->
  NoDup (map id_of data) ->
  build w =
    (inr tt,
     mkWorld (csv_file w) (Some data) (Some (map entry_of data))
       (stdout w
        ++ ["Building Vector Database...";
            "Processing " +:+ pretty (length data) +:+ " items..."]
        ++ map (batch_line (length data / batch_size + 1))
               (py_range (length data) batch_size)
        ++ ["Database built successfully in /vector_store!"])).
Proof.
  intros Hjson Hids Hnd.
  rewrite (build_run (VectorIndex0 := MemIndex dist) w data Hjson Hids). cbn zeta.
  change (@vi_create _ (MemIndex dist)) with (@nil Entry).
  rewrite (mem_add_all_fresh _ (batches_sizes data) []).
  2: { simpl.
       replace (concat (map (fun b : Columns => b.1.1) (batches (columns_of data))))
         with (map id_of data); [done|].
       symmetry. exact (f_equal (fun c : Columns => c.1.1) (batches_concat data)). }
  cbn [fst snd outcome_of app]. rewrite concat_batch_entries.
  unfold run_lines. cbn [fst snd]. unfold batches. cbn [columns_of fst].
  rewrite !length_map. by rewrite firstn_all.
Qed.
End MemMore.

(** ** The cleaning step followed by the ingestion *)

Section Pipeline.
Variable dist : string -> string -> nat.
Abbreviation build := (build_knowledge_base (VectorIndex0 := MemIndex dist)).

(** X10: when [clean_data] and then [build_knowledge_base] both end
    normally, every document of the index comes from a row of the CSV
    frame whose prompt and lecture are both present: its id is the text
    of the row's id and its text is made of the row's prompt and
    lecture.  A row with a missing prompt or lecture contributes no
    document. *)
Theorem pipeline_indexes_only_present_rows (w : World (list Entry)) df c' e :
  csv_file w = Some df ->
  (clean_data w).1 = inr tt ->
  (build (clean_data w).2).1 = inr tt ->
  store (build (clean_data w).2).2 = Some c' ->
  e ∈ c' ->
  exists row,
    row ∈ rows df /\
    notna (cell row "prompt") = true /\ notna (cell row "lecture") = true /\
    e_id e = py_str (cell row "id") /\
    e_doc e = "Question: " +:+ py_str (cell row "prompt")
              +:+ " Context: " +:+ py_str (cell row "lecture").
Proof.
  intros Hcsv Hclean Hbuild Hst He.
  destruct (decide ("prompt" ∈ columns df /\ "lecture" ∈ columns df)) as [[Hp Hl]|Hmiss].
  2: { destruct (clean_data_run_missing w df Hcsv Hmiss) as (k & _ & _ & Hrun).
       by rewrite Hrun in Hclean. }
  pose proof (clean_data_run_present w df Hcsv Hp Hl) as Hrun.
  rewrite Hrun in Hbuild, Hst. cbn [snd] in Hbuild, Hst.
  match type of Hst with store (build ?x).2 = _ => set (w1 := x) in * end.
  destruct (mem_build_contents dist w1 _ eq_refl Hbuild)
    as (c & Hst' & Hids & _ & Hent & _).
  rewrite Hst in Hst'. injection Hst' as <-.
  destruct (Hent e He) as (item & Hitem & ->).
  apply list_elem_of_In, in_map_iff in Hitem as (row & <- & Hrow).
  apply list_elem_of_In, list_elem_of_filter in Hrow as [Hpres Hrow].
  apply andb_true_iff in Hpres as [Hnp Hnl].
  exists row. split; [done|]. split; [done|]. split; [done|].
  assert (has_id (clean_row df row)) as [v Hv].
  { rewrite Forall_forall in Hids. apply Hids.
    apply list_elem_of_In, in_map. apply list_elem_of_In, list_elem_of_filter.
    split; [|done]. unfold present. by rewrite Hnp, Hnl. }
  assert ("id" ∈ columns df) as Hid.
  { rewrite clean_row_lookup in Hv.
    destruct (decide ("id" ∈ existing_cols df)) as [Hin|]; [|done].
    apply elem_of_existing_cols in Hin as [_ [?|?]]; done. }
  cbn [entry_of e_id e_doc]. unfold id_of, combined_text.
  fold (cell (clean_row df row) "id").
  change (dict_get (clean_row df row) "prompt" (JStr ""))
    with (match clean_row df row !! "prompt" with Some v => v | None => JStr "" end).
  change (dict_get (clean_row df row) "lecture" (JStr ""))
    with (match clean_row df row !! "lecture" with Some v => v | None => JStr "" end).
  rewrite !clean_row_lookup.
  rewrite !decide_True
    by (apply elem_of_existing_cols; split;
        [first [apply wanted_prompt|apply wanted_lecture]|by left]).
  rewrite cell_clean_row; [|done|by apply (bool_decide_unpack _)|done].
  unfold cell, dict_get. by rewrite !lookup_insert_ne.
Qed.
End Pipeline.

(** ** More on the query pipeline *)

Section RetrievalMore.
Context {C : Type} `{!VectorIndex C}.

(** X11: the handler of [/retrieve] answers with a response exactly when
    the search returns at least one document and the metadata returned
    for the first document is a dict (not [None]); the response then
    joins the documents and names the topic of the first, ["General"]
    if its metadata has none.  In every other case (the search raises,
    returns no document, or returns [None] as the first metadata) it
    answers with an error: the fixed "no information" message never
    reaches a response. *)
Theorem retrieve_context_responds_iff (request : QueryRequest) (app : App C) resp :
  (retrieve_context request app).1 = inr resp
  <-> exists d ds m ms rest_docs rest_metas,
        vi_query (collection app) [question_text request] 2
        = inr {| documents := (d :: ds) :: rest_docs;
                 metadatas := (Some m :: ms) :: rest_metas |} /\
        resp = {| answer_context := join " " (d :: ds);
                  source_topic := default "General" (m !! "topic");
                  confidence_score := mkDecimal 95 (-2) |}.
Proof.
  unfold retrieve_context, search_knowledge. cbn [log collection].
  destruct (vi_query _ _ _) as [e|[docs metas]] eqn:Hq.
  - split; [done|]. by intros (d & ds & m & ms & rd & rm & [=] & _).
  - cbn [documents metadatas].
    destruct docs as [|[|d ds] rd]; cbn.
    + split; [done|]. by intros (d & ds & m & ms & rd & rm & [=] & _).
    + split; [done|]. by intros (d & ds' & m & ms & rd' & rm & [=] & _).
    + destruct metas as [|[|[m|] ms] rm]; cbn.
      * split; [done|]. by intros (d' & ds' & m & ms & rd' & rm & [=] & _).
      * split; [done|]. by intros (d' & ds' & m & ms & rd' & rm' & [=] & _).
      * split.
        -- intros [= <-]. by exists d, ds, m, ms, rd, rm.
        -- intros (d' & ds' & m' & ms' & rd' & rm' & [= -> -> -> -> -> ->] & ->). done.
      * split; [done|]. by intros (d' & ds' & m & ms' & rd' & rm' & [=] & _).
Qed.
End RetrievalMore.

(** ** Ingestion followed by a query, over the in-memory collection *)

(** The metadata of an ingested record is never empty, so a query
    returns it. *)
Lemma returned_metadata_entry_of item :
  returned_metadata (entry_of item) = Some (metadata_of item).
Proof.
  unfold returned_metadata. cbn [entry_of e_meta].
  destruct (decide (metadata_of item = ∅)) as [Hempty|]; [|done].
  destruct (metadata_of_lookup item) as (_ & Ht & _).
  rewrite Hempty in Ht. by rewrite lookup_empty in Ht.
Qed.

Section Ranked.
Variable dist : string -> string -> nat.

Lemma insert_by_elem q e l x : x ∈ insert_by dist q e l <-> x = e \/ x ∈ l.
Proof.
  induction l as [|y l IH]; simpl.
  - rewrite list_elem_of_singleton. split; [by left|]. intros [?|H]; [done|].
    by apply elem_of_nil in H.
  - destruct (dist q (e_doc e) <? dist q (e_doc y))%nat.
    + by rewrite elem_of_cons.
    + rewrite !elem_of_cons, IH. tauto.
Qed.

Lemma insert_by_length q e l : length (insert_by dist q e l) = S (length l).
Proof.
  induction l as [|y l IH]; simpl; [done|].
  destruct (dist q (e_doc e) <? dist q (e_doc y))%nat; simpl; by rewrite ?IH.
Qed.

Lemma rank_from_elem q c : forall acc x,
  x ∈ fold_left (fun acc e => insert_by dist q e acc) c acc <-> x ∈ c \/ x ∈ acc.
Proof.
  induction c as [|e c IH]; intros acc x; simpl.
  - split; [by right|]. intros [H|?]; [by apply elem_of_nil in H|done].
  - rewrite IH, insert_by_elem, elem_of_cons. tauto.
Qed.

Lemma rank_from_length q c : forall acc,
  length (fold_left (fun acc e => insert_by dist q e acc) c acc)
  = length c + length acc.
Proof.
  induction c as [|e c IH]; intros acc; simpl; [done|].
  rewrite IH, insert_by_length. lia.
Qed.

Lemma rank_elem q c x : x ∈ rank dist q c <-> x ∈ c.
Proof.
  unfold rank. rewrite rank_from_elem. split; [|by left].
  intros [?|H]; [done|]. by apply elem_of_nil in H.
Qed.

Lemma rank_length q c : length (rank dist q c) = length c.
Proof. unfold rank. rewrite rank_from_length. simpl. lia. Qed.

(** The two nearest documents of a collection that is not empty. *)
Lemma top_two q c :
  c <> [] ->
  exists e rest,
    take 2 (rank dist q c) = e :: rest /\ length rest <= 1 /\
    e ∈ c /\ Forall (fun x => x ∈ c) rest.
Proof.
  intros Hne. pose proof (rank_length q c) as Hlen.
  destruct (rank dist q c) as [|e [|e' l]] eqn:Hr.
  - destruct c; [done|]. simpl in Hlen. lia.
  - exists e, []. simpl. split; [done|]. split; [lia|]. split; [|constructor].
    apply (rank_elem q). rewrite Hr. left.
  - exists e, [e']. simpl. split; [done|]. split; [lia|]. split.
    + apply (rank_elem q). rewrite Hr. left.
    + constructor; [|constructor]. apply (rank_elem q). rewrite Hr. right. left.
Qed.

(** X12: after a run that ends normally on a corpus that is not empty,
    the handler of [/retrieve] answers every question with a response,
    never with an error: the context is the text of one or two records
    of the corpus, joined by a space, and the topic is the one stored for
    the first of them, that is the record's topic or "General". *)
Theorem retrieve_after_build_responds
    (w : World (list Entry)) data c' (request : QueryRequest) (console : list string) :
  json_file w = Some data ->
  data <> [] ->
  (build_knowledge_base (VectorIndex0 := MemIndex dist) w).1 = inr tt ->
  store (build_knowledge_base (VectorIndex0 := MemIndex dist) w).2 = Some c' ->
  exists item others,
    item ∈ data /\ Forall (fun x => x ∈ data) others /\ length others <= 1 /\
    (retrieve_context (VectorIndex0 := MemIndex dist) request (mkApp c' console)).1
    = inr {| answer_context := join " " (map combined_text (item :: others));
             source_topic := py_str (py_or (item !! "topic") (JStr "General"));
             confidence_score := mkDecimal 95 (-2) |}.
Proof.
  intros Hjson Hne Hok Hst.
  destruct (mem_build_contents dist w data Hjson Hok)
    as (c & Hst' & _ & _ & Hent & Hcov).
  rewrite Hst in Hst'. injection Hst' as <-.
  assert (c' <> []) as Hc'.
  { destruct data as [|item data]; [done|].
    intros ->. specialize (Hcov item ltac:(left)). by apply elem_of_nil in Hcov. }
  destruct (top_two (question_text request) c' Hc') as (e & rest & Htop & Hlen & He & Hrest).
  destruct (Hent e He) as (item & Hitem & ->).
  assert (exists others, Forall (fun x => x ∈ data) others /\ rest = map entry_of others)
    as (others & Hothers & ->).
  { clear Htop Hlen. induction Hrest as [|x rest Hx _ (others & Ho & ->)].
    - by exists [].
    - destruct (Hent x Hx) as (it & Hit & ->). exists (it :: others).
      split; [by constructor|done]. }
  exists item, others. split; [done|]. split; [done|].
  split; [by rewrite length_map in Hlen|].
  unfold retrieve_context, search_knowledge. cbn [log collection].
  cbn [vi_query MemIndex mem_query map]. rewrite Htop.
  cbn [documents metadatas lookup list_lookup map e_doc].
  rewrite returned_metadata_entry_of.
  destruct (metadata_of_lookup item) as (_ & -> & _). cbn [default unpack2 id].
  do 3 f_equal. by rewrite map_map.
Qed.
End Ranked.

(** ** More on the quiz engine *)

Lemma draw_submseteq {A} (rng : nat -> nat) n : forall k (pool : list A),
  draw rng k n pool ⊆+ pool.
Proof.
  induction n as [|n IH]; intros k pool; simpl.
  - apply submseteq_nil_l.
  - destruct (pool !! (rng k mod length pool)) as [x|] eqn:Hx.
    + etrans; [apply submseteq_skip, IH|].
      apply Permutation_submseteq. symmetry. by apply delete_Permutation.
    + apply submseteq_nil_l.
Qed.

Lemma select_mask_filter (f : Item -> bool) (rws : list Item) :
  select_mask rws (map f rws) = filter (fun row => f row = true) rws.
Proof.
  unfold select_mask. induction rws as [|row rws IH]; [done|].
  simpl. rewrite !filter_cons. simpl.
  destruct (decide (f row = true)); simpl; by rewrite IH.
Qed.

Section QuizMore.
Variable re_search : string -> option (string -> bool).
Variable rng : nat -> nat.

Lemma topic_mask_ok df topic matches :
  "topic" ∈ columns df ->
  (exists row s, row ∈ rows df /\ row !! "topic" = Some (JStr s)) ->
  re_search topic = Some matches ->
  topic_mask re_search df topic = inr (map (topic_matches matches) (rows df)).
Proof.
  intros Hcol (row & s & Hrow & Hs) Hre. unfold topic_mask.
  rewrite bool_decide_eq_true_2 by done.
  by rewrite (str_accessor_ok_string (rows df) row s Hrow Hs), Hre.
Qed.

(** A matching row has a string in its topic cell. *)
Lemma matching_rows_string matches df :
  matching_rows matches df <> [] ->
  exists row s, row ∈ rows df /\ row !! "topic" = Some (JStr s).
Proof.
  intros Hne. destruct (matching_rows matches df) as [|row l] eqn:Hm; [done|].
  assert (row ∈ matching_rows matches df) as Hrow by (rewrite Hm; left).
  apply list_elem_of_filter in Hrow as [Ht Hrow]. unfold topic_matches in Ht.
  exists row. destruct (row !! "topic") as [[| | |s|]|]; try done. by exists s.
Qed.

(** X13: when some record matches the topic, [generate_quiz] samples
    from the matching records only and prints no warning: for
    [num_questions >= 0] it returns [min(num_questions, number of
    matching records)] of them, none more often than it occurs in the
    frame. *)
Theorem generate_quiz_samples_matching_rows df topic difficulty n matches :
  "topic" ∈ columns df ->
  re_search topic = Some matches ->
  matching_rows matches df <> [] ->
  (0 <= n)%Z ->
  exists quiz,
    generate_quiz re_search rng df topic difficulty n = (inr quiz, []) /\
    Z.of_nat (length quiz) = Z.min n (Z.of_nat (length (matching_rows matches df))) /\
    quiz ⊆+ matching_rows matches df.
Proof.
  intros Hcol Hre Hne Hn.
  assert (df_empty df = false) as Hdf.
  { unfold df_empty. destruct (rows df) eqn:Hr.
    - unfold matching_rows in Hne. by rewrite Hr in Hne.
    - by destruct (columns df); [apply elem_of_nil in Hcol|]. }
  unfold generate_quiz.
  rewrite Hdf, (topic_mask_ok df topic matches Hcol (matching_rows_string _ _ Hne) Hre).
  rewrite select_mask_filter. fold (matching_rows matches df).
  destruct (matching_rows matches df) as [|r pool] eqn:Hm; [done|].
  unfold df_sample.
  destruct (Z.ltb_spec (Z.min n (Z.of_nat (length (r :: pool)))) 0); [lia|].
  destruct (Z.ltb_spec (Z.of_nat (length (r :: pool)))
                       (Z.min n (Z.of_nat (length (r :: pool))))); [lia|].
  eexists. split; [done|]. split; [|apply draw_submseteq].
  rewrite draw_length by lia. lia.
Qed.

Lemma generate_quiz_sampled df topic difficulty n matches :
  df_empty df = false ->
  "topic" ∈ columns df ->
  (exists row s, row ∈ rows df /\ row !! "topic" = Some (JStr s)) ->
  re_search topic = Some matches ->
  exists pool printed,
    0 < length pool /\ (forall r, r ∈ pool -> r ∈ rows df) /\
    generate_quiz re_search rng df topic difficulty n
    = (df_sample rng (Z.min n (Z.of_nat (length pool))) pool, printed).
Proof.
  intros Hdf Hcol Hstr Hre. unfold generate_quiz.
  rewrite Hdf, (topic_mask_ok df topic matches Hcol Hstr Hre), select_mask_filter.
  destruct (filter _ (rows df)) as [|r l] eqn:Hsel.
  - exists (rows df). eexists. split; [by apply df_nonempty_rows|]. done.
  - exists (r :: l). eexists. split; [simpl; lia|]. split; [|done].
    intros x Hx. rewrite <- Hsel in Hx. by apply list_elem_of_filter in Hx as [_ ?].
Qed.

Lemma df_sample_min_fails {A} n (pool : list A) e :
  df_sample rng (Z.min n (Z.of_nat (length pool))) pool = inl e
  <-> (n < 0)%Z /\
      e = ValueError "A negative number of rows requested. Please provide `n` >= 0.".
Proof.
  unfold df_sample.
  destruct (Z.ltb_spec (Z.min n (Z.of_nat (length pool))) 0) as [Hneg|Hpos].
  - split; [intros [= <-]; split; [lia|done]|by intros [_ ->]].
  - destruct (Z.ltb_spec (Z.of_nat (length pool))
                         (Z.min n (Z.of_nat (length pool)))) as [Hbig|_]; [lia|].
    split; [done|]. intros [Hn _]. lia.
Qed.

(** X14: on a frame that is not empty and whose [topic] column, when it
    has one, holds at least one string, [generate_quiz] fails in three
    cases only: the frame has no [topic] column ([KeyError]), the topic
    is not a valid pattern, or [num_questions] is negative
    ([ValueError] from [sample]). *)
Theorem generate_quiz_fails_iff df topic difficulty n e :
  df_empty df = false ->
  ("topic" ∈ columns df ->
   exists row s, row ∈ rows df /\ row !! "topic" = Some (JStr s)) ->
  (generate_quiz re_search rng df topic difficulty n).1 = inl e
  <-> (("topic" ∉ columns df) /\ e = KeyError "topic") \/
      (("topic" ∈ columns df) /\ re_search topic = None /\ e = ReError topic) \/
      (("topic" ∈ columns df) /\ is_Some (re_search topic) /\ (n < 0)%Z /\
       e = ValueError "A negative number of rows requested. Please provide `n` >= 0.").
Proof.
  intros Hdf Hstr.
  destruct (decide ("topic" ∈ columns df)) as [Hcol|Hcol].
  - destruct (re_search topic) as [matches|] eqn:Hre.
    + destruct (generate_quiz_sampled df topic difficulty n matches Hdf Hcol
                  (Hstr Hcol) Hre)
        as (pool & printed & _ & _ & ->).
      cbn [fst]. rewrite df_sample_min_fails. split.
      * intros [? ->]. right. right. eauto.
      * intros [[? _]|[(_ & ? & _)|(_ & _ & ? & ->)]]; done.
    + destruct (Hstr Hcol) as (row & s & Hrow & Hs).
      unfold generate_quiz, topic_mask. rewrite Hdf, Hre.
      rewrite bool_decide_eq_true_2 by done.
      rewrite (str_accessor_ok_string (rows df) row s Hrow Hs). cbn [fst]. split.
      * intros [= <-]. right. left. done.
      * intros [[? _]|[(_ & _ & ->)|(_ & [? ?] & _)]]; done.
  - unfold generate_quiz, topic_mask. rewrite Hdf.
    rewrite bool_decide_eq_false_2 by done. cbn [fst]. split.
    + intros [= <-]. by left.
    + intros [[_ ->]|[(? & _)|(? & _)]]; done.
Qed.

(** X15: through the handler of [/quiz/generate], which asks for five
    questions, a frame that is not empty and has a [topic] column with
    at least one string in it answers every valid topic with one to
    five records of the frame: the quiz is never empty and the call
    never fails. *)
Theorem get_quiz_returns_one_to_five df topic difficulty :
  df_empty df = false ->
  "topic" ∈ columns df ->
  (exists row s, row ∈ rows df /\ row !! "topic" = Some (JStr s)) ->
  is_Some (re_search topic) ->
  exists quiz,
    (get_quiz re_search rng df topic difficulty).1 = inr quiz /\
    1 <= length quiz <= 5 /\
    (forall r, r ∈ quiz -> r ∈ rows df).
Proof.
  intros Hdf Hcol Hstr [matches Hre]. unfold get_quiz.
  destruct (generate_quiz_sampled df topic difficulty 5 matches Hdf Hcol Hstr Hre)
    as (pool & printed & Hlen & Hsub & ->).
  cbn [fst]. unfold df_sample.
  destruct (Z.ltb_spec (Z.min 5 (Z.of_nat (length pool))) 0); [lia|].
  destruct (Z.ltb_spec (Z.of_nat (length pool))
                       (Z.min 5 (Z.of_nat (length pool)))); [lia|].
  eexists. split; [done|]. rewrite draw_length by lia. split; [lia|].
  intros r Hr. apply Hsub. by apply draw_subset in Hr.
Qed.
End QuizMore.

(** ** The performance feedback *)

Lemma append_assoc (a b c : string) : (a +:+ b) +:+ c = a +:+ (b +:+ c).
Proof.
  induction a as [|ch a IH]; [done|].
  change (String ch ((a +:+ b) +:+ c) = String ch (a +:+ (b +:+ c))). by rewrite IH.
Qed.

Lemma append_nil_r (a : string) : a +:+ "" = a.
Proof.
  induction a as [|ch a IH]; [done|].
  change (String ch (a +:+ "") = String ch a). by rewrite IH.
Qed.

Lemma join_contains sep (l : list string) x :
  x ∈ l -> exists pre post, join sep l = pre +:+ x +:+ post.
Proof.
  unfold join. induction l as [|y l IH]; intros Hx.
  - by apply elem_of_nil in Hx.
  - apply elem_of_cons in Hx as [->|Hx].
    + destruct l as [|z l]; simpl.
      * exists "", "". simpl. by rewrite append_nil_r.
      * by exists "", (sep +:+ String.concat sep (z :: l)).
    + destruct (IH Hx) as (pre & post & Heq).
      destruct l as [|z l]; [by apply elem_of_nil in Hx|].
      change (String.concat sep (y :: z :: l))
        with (y +:+ sep +:+ String.concat sep (z :: l)).
      rewrite Heq. exists (y +:+ sep +:+ pre), post.
      by rewrite !append_assoc.
Qed.

Lemma filter_all_false {A} (P : A -> Prop) `{forall x, Decision (P x)} (l : list A) :
  (forall x, x ∈ l -> ~ P x) -> filter P l = [].
Proof.
  induction l as [|x l IH]; intros Hall; [done|].
  rewrite filter_cons, decide_False by (apply Hall; left).
  apply IH. intros y Hy. apply Hall. by right.
Qed.

Lemma distinct_elem (l : list string) x : x ∈ distinct l <-> x ∈ l.
Proof.
  induction l as [|y l IH]; simpl; [done|].
  rewrite !elem_of_cons, list_elem_of_filter, IH.
  destruct (decide (x = y)); tauto.
Qed.

Lemma NoDup_filter_str (P : string -> Prop) `{forall x, Decision (P x)} (l : list string) :
  NoDup l -> NoDup (filter P l).
Proof.
  induction 1 as [|x l Hx Hnd IH]; [constructor|].
  rewrite filter_cons. destruct (decide (P x)); [|done].
  constructor; [|done]. by intros [_ ?]%list_elem_of_filter.
Qed.

Lemma distinct_NoDup (l : list string) : NoDup (distinct l).
Proof.
  induction l as [|y l IH]; simpl; constructor.
  - by intros [? _]%list_elem_of_filter.
  - by apply NoDup_filter_str.
Qed.

Lemma distinct_snoc (l : list string) x :
  distinct (l ++ [x]) = if decide (x ∈ l) then distinct l else distinct l ++ [x].
Proof.
  induction l as [|y l IH]; simpl.
  - by destruct (decide (x ∈ [])) as [H%elem_of_nil|].
  - rewrite IH. destruct (decide (x = y)) as [->|Hne].
    + rewrite (decide_True (P := y ∈ y :: l)) by left.
      destruct (decide (y ∈ l)); [done|].
      rewrite filter_app, filter_cons, decide_False by (by intros ?).
      by rewrite filter_nil, app_nil_r.
    + destruct (decide (x ∈ l)) as [Hin|Hnin].
      * by rewrite decide_True by (by right).
      * rewrite decide_False by (by intros [?|?]%elem_of_cons).
        rewrite filter_app, filter_cons, decide_True by done. done.
Qed.

(** Recording a score in a map laid out topic by topic. *)
Lemma record_score_grouped (f : string -> list nat) (ks : list string) x c :
  NoDup ks ->
  record_score (map (fun t => (JStr t, f t)) ks) (JStr x) c
  = if decide (x ∈ ks)
    then map (fun t => (JStr t, if decide (t = x) then f t ++ [c] else f t)) ks
    else map (fun t => (JStr t, f t)) ks ++ [(JStr x, [c])].
Proof.
  induction 1 as [|k ks Hk Hnd IH]; simpl.
  - by destruct (decide (x ∈ [])) as [H%elem_of_nil|].
  - destruct (String.eqb_spec k x) as [->|Hne].
    + rewrite decide_True by left. rewrite decide_True by done. f_equal.
      apply map_ext_in. intros t Ht%list_elem_of_In.
      rewrite decide_False; [done|]. by intros ->.
    + rewrite IH. rewrite (decide_False (P := k = x)) by done.
      destruct (decide (x ∈ ks)) as [Hin|Hnin].
      * by rewrite decide_True by (by right).
      * by rewrite decide_False by (by intros [?|?]%elem_of_cons).
Qed.

(** The score map after the first loop, for results whose topics are
    strings. *)
Lemma score_all_fold (results : list Item) : forall score_map,
  Forall (fun res => exists s, dict_get res "topic" (JStr "General") = JStr s) results ->
  score_all results score_map
  = inr (fold_left (fun m res => record_score m (JStr (topic_text res)) (correct_of res))
                   results score_map).
Proof.
  induction results as [|res results IH]; intros m Hall; [done|].
  apply Forall_cons in Hall as [[s Hs] Hall]. simpl.
  unfold score_one, topic_text. rewrite Hs. simpl. by apply IH.
Qed.

Lemma fold_scores_grouped (results : list Item) :
  fold_left (fun m res => record_score m (JStr (topic_text res)) (correct_of res))
            results []
  = map (fun t => (JStr t, scores_of t results)) (distinct (map topic_text results)).
Proof.
  induction results as [|res results IH] using rev_ind; [done|].
  rewrite fold_left_app, IH. simpl.
  rewrite record_score_grouped by apply distinct_NoDup.
  rewrite map_app. simpl. rewrite distinct_snoc.
  assert (forall t, scores_of t (results ++ [res])
                    = scores_of t results
                      ++ (if decide (topic_text res = t) then [correct_of res] else []))
    as Hsnoc.
  { intros t. unfold scores_of. rewrite filter_app, map_app, filter_cons, filter_nil.
    by destruct (decide (topic_text res = t)). }
  destruct (decide (topic_text res ∈ map topic_text results)) as [Hin|Hnin].
  - rewrite decide_True by (by apply distinct_elem).
    apply map_ext. intros t. rewrite Hsnoc.
    destruct (decide (t = topic_text res)) as [->|Hne].
    + by destruct (decide (topic_text res = topic_text res)).
    + rewrite (decide_False (P := topic_text res = t)) by done. by rewrite app_nil_r.
  - rewrite decide_False by (by rewrite distinct_elem).
    rewrite map_app. simpl. f_equal.
    + apply map_ext_in. intros t Ht. rewrite <- list_elem_of_In, distinct_elem in Ht.
      rewrite Hsnoc.
      rewrite decide_False; [by rewrite app_nil_r|]. intros <-. by apply Hnin.
    + rewrite Hsnoc. destruct (decide (topic_text res = topic_text res)); [|done].
      unfold scores_of. rewrite filter_all_false; [done|].
      intros r Hr Heq. apply Hnin. rewrite <- Heq.
      apply list_elem_of_In, in_map. by apply list_elem_of_In.
Qed.

Lemma analyze_performance_grouped (results : list Item) :
  results <> [] ->
  Forall (fun res => exists s, dict_get res "topic" (JStr "General") = JStr s) results ->
  analyze_performance results = inr (grouped_feedback results).
Proof.
  intros Hne Hall. unfold analyze_performance, grouped_feedback.
  destruct results as [|res results]; [done|].
  rewrite (score_all_fold _ [] Hall), fold_scores_grouped. by rewrite map_map.
Qed.

(** X16: for results whose topics are strings, [analyze_performance]
    returns one line per topic, in the order in which the topics first
    occur, each computed from all the scores of that topic in the order
    of the results; it does not fail. *)
Theorem analyze_performance_groups_by_topic (results : list Item) :
  results <> [] ->
  Forall (fun res => exists s, dict_get res "topic" (JStr "General") = JStr s) results ->
  analyze_performance results
  = inr (join " " (map (fun t => feedback_line (JStr t) (scores_of t results))
                       (distinct (map topic_text results)))).
Proof. apply analyze_performance_grouped. Qed.

Lemma item_dict_topic (r : ResultItem) :
  dict_get (item_dict r) "topic" (JStr "General") = JStr (topic r).
Proof. unfold dict_get, item_dict. by simplify_map_eq. Qed.

Lemma item_dict_correct (r : ResultItem) :
  correct_of (item_dict r) = if is_correct r then 1 else 0.
Proof. unfold correct_of, item_dict. simplify_map_eq. done. Qed.

Lemma sum_of_flags (l : list ResultItem) :
  list_sum (map (fun r => if is_correct r then 1 else 0) l)
  = length (filter (fun r => is_correct r = true) l).
Proof.
  induction l as [|r l IH]; [done|]. simpl. rewrite filter_cons.
  destruct (decide (is_correct r = true)) as [Hr|Hr]; simpl.
  - by rewrite Hr, IH.
  - by destruct (is_correct r).
Qed.



Lemma scores_of_items t (items : list ResultItem) :
  scores_of t (map item_dict items)
  = map (fun r => if is_correct r then 1 else 0) (answers_for t items).
Proof.
  unfold scores_of, answers_for. rewrite filter_map_commute, map_map.
  erewrite map_ext; [|apply item_dict_correct].
  rewrite (list_filter_iff (fun a => topic_text (item_dict a) = t)
                           (fun r => topic r = t)); [done|].
  intros r. unfold topic_text. by rewrite item_dict_topic.
Qed.

Lemma feedback_line_counts t (items : list ResultItem) :
  feedback_line (JStr t) (scores_of t (map item_dict items))
  = if (2 * length (correct_for t items) <? length (answers_for t items))%nat
    then "Weakness detected in " +:+ t +:+ ". Review the lecture notes."
    else if (length (correct_for t items) =? length (answers_for t items))%nat
    then "Perfect score in " +:+ t +:+ "! Moving to advanced mode."
    else "Good progress in " +:+ t +:+ ". Keep practicing.".
Proof.
  unfold feedback_line. rewrite scores_of_items, sum_of_flags, length_map.
  done.
Qed.

Lemma submit_results_grouped (items : list ResultItem) :
  items <> [] ->
  submit_results items
  = inr (join " "
           (map (fun t => feedback_line (JStr t) (scores_of t (map item_dict items)))
                (distinct (map topic items)))).
Proof.
  intros Hne. unfold submit_results. cbn zeta.
  rewrite analyze_performance_grouped.
  - unfold grouped_feedback. rewrite map_map.
    rewrite (map_ext (fun x => topic_text (item_dict x)) topic); [done|].
    intros r. unfold topic_text. by rewrite item_dict_topic.
  - by destruct items.
  - apply Forall_forall. intros res Hres.
    apply list_elem_of_In, in_map_iff in Hres as (r & <- & _).
    eexists. apply item_dict_topic.
Qed.

(** X17: the handler of [/quiz/analyze] never fails.  Without results it
    answers "No data to analyze."; otherwise its feedback has one
    sentence per topic, in the order in which the topics first occur:
    "Weakness detected" when fewer than half of the answers of the topic
    are correct, "Perfect score" when all of them are, "Good progress"
    in between. *)
Theorem submit_results_feedback (items : list ResultItem) :
  submit_results items
  = inr (match items with
         | [] => "No data to analyze."
         | _ =>
             join " "
               (map (fun t =>
                       if (2 * length (correct_for t items)
                           <? length (answers_for t items))%nat
                       then "Weakness detected in " +:+ t
                            +:+ ". Review the lecture notes."
                       else if (length (correct_for t items)
                                =? length (answers_for t items))%nat
                       then "Perfect score in " +:+ t +:+ "! Moving to advanced mode."
                       else "Good progress in " +:+ t +:+ ". Keep practicing.")
                    (distinct (map topic items)))
         end).
Proof.
  destruct items as [|r items]; [done|].
  rewrite submit_results_grouped by done. do 2 f_equal.
  apply map_ext. intros t. apply feedback_line_counts.
Qed.

(** X18: when fewer than half of the answers given for a topic are
    correct, the feedback of [/quiz/analyze] contains the sentence
    "Weakness detected in <topic>. Review the lecture notes." (what the
    analytics check of [test_api.py] looks for). *)
Theorem weak_topic_is_reported (items : list ResultItem) t :
  t ∈ map topic items ->
  2 * length (correct_for t items) < length (answers_for t items) ->
  exists pre post,
    submit_results items
    = inr (pre +:+ "Weakness detected in " +:+ t +:+ ". Review the lecture notes."
           +:+ post).
Proof.
  intros Ht Hweak.
  assert (items <> []) as Hne by (intros ->; by apply elem_of_nil in Ht).
  rewrite submit_results_grouped by done.
  destruct (join_contains " "
              (map (fun t => feedback_line (JStr t) (scores_of t (map item_dict items)))
                   (distinct (map topic items)))
              ("Weakness detected in " +:+ t +:+ ". Review the lecture notes."))
    as (pre & post & Heq).
  - apply list_elem_of_In, in_map_iff. exists t. split.
    + rewrite feedback_line_counts.
      by destruct (Nat.ltb_spec (2 * length (correct_for t items))
                                (length (answers_for t items))); [|lia].
    + by apply list_elem_of_In, distinct_elem.
  - exists pre, post. rewrite Heq. by rewrite !append_assoc.
Qed.


(** ** Further concrete runs *)

Module MoreRuns.
Import Examples MoreExamples.

Lemma clean_data_keeps_present_rows_witness :
  (clean_data raw_world).1 = inr tt /\
  json_file (clean_data raw_world).2
  = Some (map (clean_row raw_frame)
              (filter (fun row => present row = true) (rows raw_frame))).
Proof.
  pose proof (proj1 (clean_data_keeps_present_rows raw_world raw_frame eq_refl
                       ltac:(by apply (bool_decide_unpack _))
                       ltac:(by apply (bool_decide_unpack _)))) as Hrun.
  rewrite Hrun. split; reflexivity.
Defined.

Lemma clean_data_missing_column_witness :
  exists k,
    (clean_data (mkWorld (C:=list Entry) (Some frame_without_lecture) None None [])).1
    = inl (KeyError k).
Proof.
  destruct (clean_data_missing_column
              (mkWorld (C:=list Entry) (Some frame_without_lecture) None None [])
              frame_without_lecture eq_refl)
    as (k & _ & _ & Hrun).
  - intros [_ Hl]. apply (bool_decide_eq_true_2 _) in Hl. discriminate Hl.
  - exists k. by rewrite Hrun.
Defined.

Lemma clean_data_record_keys_witness :
  clean_row raw_frame {[ "id" := JInt 1; "prompt" := JStr "P1"; "lecture" := JStr "L1";
                         "topic" := JStr "Biology"; "A" := JStr "yes";
                         "B" := JStr "no" ]} !! "A" = None.
Proof.
  refine (proj2 (proj2 (clean_data_record_keys raw_world raw_frame
                          (map (clean_row raw_frame)
                               (filter (fun row => present row = true) (rows raw_frame)))
                          _ eq_refl _ _ _)) "A" _).
  - vm_compute. reflexivity.
  - vm_compute. reflexivity.
  - left.
  - left.
Defined.

Lemma build_forgets_earlier_collection_witness :
  store (build_knowledge_base (VectorIndex0 := index) (stale_world [mitosis])).2
  = store (build_knowledge_base (VectorIndex0 := index) (world_of [mitosis])).2.
Proof.
  exact (proj1 (proj2 (build_forgets_earlier_collection (VectorIndex0 := index)
                         (stale_world [mitosis]) (world_of [mitosis]) [mitosis]
                         eq_refl eq_refl))).
Defined.

Lemma build_leaves_files_alone_witness :
  store (build_knowledge_base (VectorIndex0 := index)
           (mkWorld None None (Some two_docs) [])).2
  = Some two_docs.
Proof.
  exact (proj1 (proj2 (proj2 (proj2 (build_leaves_files_alone (VectorIndex0 := index)
                                       (mkWorld None None (Some two_docs) []))) eq_refl))).
Defined.

Lemma progress_total_witness :
  length (py_range (length (corpus 500)) 500) = 1 /\
  length (corpus 500) / 500 + 1 = 2.
Proof.
  pose proof (proj2 (progress_total_counts_one_batch_too_many (VectorIndex0 := index)
                       (world_of (corpus 500)) (corpus 500) eq_refl
                       ltac:(vm_compute; reflexivity))) as Hcount.
  split; [rewrite Hcount|]; vm_compute; reflexivity.
Defined.

Lemma build_ends_normally_iff_witness :
  (build_knowledge_base (VectorIndex0 := index) (world_of same_printed_id)).1 <> inr tt.
Proof.
  intros Hok.
  apply (build_ends_normally_iff len_dist (world_of same_printed_id) same_printed_id
           eq_refl) in Hok as [_ Hnd].
  apply Forall_cons in Hnd as [Hnd _]. vm_compute in Hnd.
  apply NoDup_cons in Hnd as [Hin _]. apply Hin. left.
Defined.

Lemma build_stores_corpus_in_order_witness :
  store (build_knowledge_base (VectorIndex0 := index) (world_of [mitosis; newton])).2
  = Some [entry_of mitosis; entry_of newton].
Proof.
  refine (f_equal (fun r => store r.2)
            (build_stores_corpus_in_order len_dist (world_of [mitosis; newton])
               [mitosis; newton] eq_refl _ _)).
  - repeat constructor; by eexists.
  - vm_compute. repeat constructor.
    + intros Hin. apply (bool_decide_eq_true_2 _) in Hin. discriminate Hin.
    + intros Hin. by apply elem_of_nil in Hin.
Defined.

Lemma pipeline_witness :
  exists row,
    row ∈ rows raw_frame /\ notna (cell row "lecture") = true /\
    "2" = py_str (cell row "id").
Proof.
  destruct (pipeline_indexes_only_present_rows len_dist raw_world raw_frame
              (map entry_of (map (clean_row raw_frame)
                                 (filter (fun row => present row = true) (rows raw_frame))))
              (mkEntry "2" "Question: P2 Context: "
                       {[ "subject" := "General"; "topic" := "Physics";
                          "solution" := "" ]}))
    as (row & Hrow & _ & Hl & Hid & _).
  - reflexivity.
  - vm_compute. reflexivity.
  - vm_compute. reflexivity.
  - vm_compute. reflexivity.
  - vm_compute. right. left.
  - exists row. split; [exact Hrow|]. split; [exact Hl|exact Hid].
Defined.

Lemma retrieve_context_responds_iff_witness :
  (retrieve_context (VectorIndex0 := index) (ask "What is force?")
     (mkApp two_docs [])).1
  = inr {| answer_context :=
             join " " [combined_text mitosis; combined_text newton];
           source_topic := default "General" (metadata_of mitosis !! "topic");
           confidence_score := mkDecimal 95 (-2) |}.
Proof.
  apply (retrieve_context_responds_iff (VectorIndex0 := index)).
  exists (combined_text mitosis), [combined_text newton],
         (metadata_of mitosis), [Some (metadata_of newton)], [], [].
  split; [vm_compute; reflexivity|reflexivity].
Defined.

Lemma retrieve_after_build_witness :
  exists item others,
    item ∈ [mitosis; newton] /\
    (retrieve_context (VectorIndex0 := index) (ask "What is force?")
       (mkApp [entry_of mitosis; entry_of newton] [])).1
    = inr {| answer_context := join " " (map combined_text (item :: others));
             source_topic := py_str (py_or (item !! "topic") (JStr "General"));
             confidence_score := mkDecimal 95 (-2) |}.
Proof.
  destruct (retrieve_after_build_responds len_dist (world_of [mitosis; newton])
              [mitosis; newton] [entry_of mitosis; entry_of newton]
              (ask "What is force?") [])
    as (item & others & Hitem & _ & _ & Hresp).
  - reflexivity.
  - discriminate.
  - vm_compute. reflexivity.
  - vm_compute. reflexivity.
  - exists item, others. split; [exact Hitem|exact Hresp].
Defined.

Lemma generate_quiz_matching_witness :
  exists quiz,
    generate_quiz contains_nocase first_row quiz_frame "bio" "Medium" 5 = (inr quiz, []) /\
    Z.of_nat (length quiz) = 1%Z.
Proof.
  destruct (generate_quiz_samples_matching_rows contains_nocase first_row quiz_frame
              "bio" "Medium" 5 (fun s => is_substring (lower "bio") (lower s)))
    as (quiz & Hq & Hlen & _).
  - by apply (bool_decide_unpack _).
  - reflexivity.
  - vm_compute. discriminate.
  - lia.
  - exists quiz. split; [exact Hq|]. rewrite Hlen. vm_compute. reflexivity.
Defined.

Lemma generate_quiz_fails_witness :
  (generate_quiz contains_nocase first_row quiz_frame "bio" "Medium" (-1)).1
  = inl (ValueError "A negative number of rows requested. Please provide `n` >= 0.").
Proof.
  apply (generate_quiz_fails_iff contains_nocase first_row quiz_frame "bio" "Medium" (-1)).
  - reflexivity.
  - intros _. exists mitosis, "Biology". split; [left|reflexivity].
  - right. right. split; [by apply (bool_decide_unpack _)|].
    split; [by eexists|]. split; [lia|reflexivity].
Defined.

Lemma get_quiz_witness :
  exists quiz,
    (get_quiz contains_nocase first_row quiz_frame "Chemistry" "Medium").1 = inr quiz /\
    1 <= length quiz <= 5.
Proof.
  destruct (get_quiz_returns_one_to_five contains_nocase first_row quiz_frame
              "Chemistry" "Medium")
    as (quiz & Hq & Hlen & _).
  - reflexivity.
  - by apply (bool_decide_unpack _).
  - exists mitosis, "Biology". split; [left|reflexivity].
  - by eexists.
  - exists quiz. split; [exact Hq|exact Hlen].
Defined.

Lemma analyze_performance_witness :
  analyze_performance (map item_dict analytics_payload)
  = inr "Weakness detected in Biology. Review the lecture notes. Perfect score in Physics! Moving to advanced mode.".
Proof.
  rewrite analyze_performance_groups_by_topic.
  - vm_compute. reflexivity.
  - discriminate.
  - repeat constructor; by eexists.
Defined.

Lemma weak_topic_witness :
  exists pre post,
    submit_results analytics_payload
    = inr (pre +:+ "Weakness detected in " +:+ "Biology"
           +:+ ". Review the lecture notes." +:+ post).
Proof.
  apply (weak_topic_is_reported analytics_payload "Biology").
  - left.
  - vm_compute. lia.
Defined.

End MoreRuns.
